(** * Daily word lifecycle and submission ledger

    A shallow embedding of the state-changing code of the "word of the day"
    application:

    - [src/context/AppStateContext.tsx]: the React provider that owns
      [currentWord], [submissions] and [archive] in the browser;
    - the Express backend ([/api/submit], [/api/generate], the second
      server file of [src/unnamed/part_001], whose line numbers are used
      below) that keeps the same three fields in [data.json];
    - [src/api/generate.js]: the serverless word generator.

    JavaScript strings are modelled as [string]; a character stands for a
    code unit in the range 0..255.  Promises that can reject are modelled by
    [Outcome]; the answers of the external services (word, image and
    summary generation, the wall clock, [Math.random]) are read from an
    environment record, one record per call of an operation. *)

From stdpp Require Import gmap strings list.
From Stdlib Require Import Ascii String.


(** ** JavaScript string helpers *)

Module JsString.

(** [WhiteSpace] and [LineTerminator] code units below 256, as used by
    [String.prototype.trim]: TAB, LF, VT, FF, CR, SP and NBSP. *)
Definition isWhiteSpace (c : ascii) : bool :=
  let n := nat_of_ascii c in
  ((9 <=? n) && (n <=? 13)) || (n =? 32) || (n =? 160).

(** The character class [[a-zA-Z]]. *)
Definition isAlpha (c : ascii) : bool :=
  let n := nat_of_ascii c in
  ((65 <=? n) && (n <=? 90)) || ((97 <=? n) && (n <=? 122)).

Fixpoint trimStart (s : string) : string :=
  match s with
  | EmptyString => EmptyString
  | String c r => if isWhiteSpace c then trimStart r else s
  end.

Fixpoint trimEnd (s : string) : string :=
  match s with
  | EmptyString => EmptyString
  | String c r =>
      match trimEnd r with
      | EmptyString => if isWhiteSpace c then EmptyString else String c EmptyString
      | r' => String c r'
      end
  end.

(** [s.trim()] *)
Definition trim (s : string) : string := trimEnd (trimStart s).

(** [s.replace(/[^a-zA-Z]/g, '')] *)
Fixpoint stripNonAlpha (s : string) : string :=
  match s with
  | EmptyString => EmptyString
  | String c r => if isAlpha c then String c (stripNonAlpha r) else stripNonAlpha r
  end.

(** [s.slice(0, n)] *)
Fixpoint slice0 (n : nat) (s : string) : string :=
  match n, s with
  | S n', String c r => String c (slice0 n' r)
  | _, _ => EmptyString
  end.

(** Truthiness of a string: only the empty string is falsy. *)
Definition truthy (s : string) : bool :=
  match s with EmptyString => false | String _ _ => true end.

(** Every character of [s] satisfies [p]. *)
Fixpoint forallb (p : ascii -> bool) (s : string) : bool :=
  match s with
  | EmptyString => true
  | String c r => p c && forallb p r
  end.

(** [c.repeat(n)] for a one-character string. *)
Fixpoint repeat (c : ascii) (n : nat) : string :=
  match n with
  | O => EmptyString
  | S n' => String c (repeat c n')
  end.

End JsString.

(** A promise settles by resolving with a value or by rejecting; [await] on
    a rejected promise throws. *)
Inductive Outcome (A : Type) : Type :=
| Resolved (a : A)
| Rejected.
Arguments Resolved {A} a.
Arguments Rejected {A}.

(** ** Data model ([src/types], as used by the code) *)

Inductive AiProvider : Type := gemini | openai.

Record ApiKeys : Type := mkApiKeys {
  key_gemini : string;
  key_openai : string;
  key_clipdrop : string
}.

(** [{ word, image, date, aiMeaning }]; [image] and [aiMeaning] may be
    missing ([undefined] in the browser, [null] on the backend). *)
Record DailyWord : Type := mkDailyWord {
  word : string;
  image : option string;
  date : string;
  aiMeaning : option string
}.

(** [{ ...currentWord, winningDefinitions }] *)
Record ArchivedWord : Type := mkArchivedWord {
  archived : DailyWord;
  winningDefinitions : list string
}.

(** [{ id, text, username, likes }]; the backend adds a timestamp and an
    optional image.  [likes] is a JavaScript number; the model uses [nat],
    which agrees with it below 2^53. *)
Record Submission : Type := mkSubmission {
  id : string;
  text : string;
  username : string;
  likes : nat;
  createdAt : option string;
  sub_image : option string
}.

Definition noDefinitions : string := "No definitions were submitted for this word.".

(** ** The browser side: [src/context/AppStateContext.tsx] *)

Module AppStateContext.

(** The React state held by [AppStateProvider] (the data fields of
    [interface AppState]). *)
Record AppState : Type := mkAppState {
  currentWord : option DailyWord;
  submissions : list Submission;
  archive : list ArchivedWord;
  userName : string;
  previousDayResults : option ArchivedWord;
  aiProvider : AiProvider;
  apiKeys : ApiKeys;
  enableImages : bool;
  isLoading : bool;
  isSummarizing : bool;
  isRegeneratingImage : bool
}.

(** The [localStorage] entries the lifecycle code reads and writes.  The
    per-day cache [wordData_<date>] is a map from the date key; values are
    kept parsed, so [JSON.parse (JSON.stringify v) = v] is built in.  The
    write of the day's word can fail (see [storageWritable]); the other
    writes sit in [try] blocks of their own that swallow a failure, and
    are taken to succeed. *)
Record LocalStorage : Type := mkLocalStorage {
  wordData : gmap string DailyWord;
  ls_currentWord : option DailyWord;
  ls_submissions : option (list Submission);
  ls_archive : option (list ArchivedWord);
  ls_userSubmissions : list Submission
}.

(** Calls to the external capabilities, in the order they are made. *)
Inductive Call : Type :=
| CallSummarize (w : string) (subs : list Submission)
| CallGenerateWord
| CallGenerateImage (w : string)
| CallFetchCurrent.

(** What a run can touch: the React state, [localStorage], and two
    records of what an outside observer sees: the state committed each
    time the running function is suspended at an [await] (oldest first),
    and the external calls made. *)
Record World : Type := mkWorld {
  react : AppState;
  storage : LocalStorage;
  observed : list AppState;
  calls : list Call
}.

(** The external collaborators of one call: the clock, the services
    imported from [../services/*] (not part of this development, hence
    taken as given answers), [Math.random], and whether
    [localStorage.setItem] accepts the write of the day's word or throws
    (a full or disabled storage).  An operation asks each service at most
    once, except the summarization service, which [triggerSummarization]
    asks a second time through [generateNewDay]; [summarizeAgain] is the
    answer to that second request. *)
Record Env : Type := mkEnv {
  today : string;
  summarizeDefinitions :
    AiProvider -> string -> string -> list Submission -> Outcome (list string);
  generateNonsenseWord : AiProvider -> string -> Outcome string;
  generateImageWithClipDrop : string -> string -> Outcome string;
  fetchCurrent : Outcome (option DailyWord);
  generateUniqueId : string;
  getRandomUsername : string;
  summarizeAgain :
    AiProvider -> string -> string -> list Submission -> Outcome (list string);
  storageWritable : bool
}.

(** The environment of a call made after the operation's first
    summarization request. *)
Definition afterSummary (e : Env) : Env :=
  {| today := today e;
     summarizeDefinitions := summarizeAgain e;
     generateNonsenseWord := generateNonsenseWord e;
     generateImageWithClipDrop := generateImageWithClipDrop e;
     fetchCurrent := fetchCurrent e;
     generateUniqueId := generateUniqueId e;
     getRandomUsername := getRandomUsername e;
     summarizeAgain := summarizeAgain e;
     storageWritable := storageWritable e |}.

(** [new Date().toISOString().split('T')[0]]; one clock reading per call. *)
Definition getTodayDateString (e : Env) : string := today e.

(** *** A small monad for [async] functions

    A computation transforms the world and either completes normally or
    throws. *)
Inductive Completion (A : Type) : Type :=
| Normal (a : A)
| Thrown.
Arguments Normal {A} a.
Arguments Thrown {A}.

Definition Async (A : Type) : Type := World -> Completion A * World.

Definition ret {A} (a : A) : Async A := fun w => (Normal a, w).

Definition bind {A B} (m : Async A) (k : A -> Async B) : Async B :=
  fun w =>
    match m w with
    | (Normal a, w') => k a w'
    | (Thrown, w') => (Thrown, w')
    end.

(** [try { body } catch (e) { handler }] *)
Definition tryCatch {A} (body handler : Async A) : Async A :=
  fun w =>
    match body w with
    | (Normal a, w') => (Normal a, w')
    | (Thrown, w') => handler w'
    end.

(** [try { body } finally { fin }] where [fin] does not throw. *)
Definition tryFinally {A} (body : Async A) (fin : Async unit) : Async A :=
  fun w =>
    match body w with
    | (c, w') => (c, snd (fin w'))
    end.

(** [await p]: the function is suspended, so the state committed so far
    is observable; then the promise settles. *)
Definition await {A} (c : Call) (p : Outcome A) : Async A :=
  fun w =>
    let w' := {| react := react w; storage := storage w;
                 observed := observed w ++ [react w];
                 calls := calls w ++ [c] |} in
    match p with
    | Resolved a => (Normal a, w')
    | Rejected => (Thrown, w')
    end.

(** [throw] *)
Definition throw {A} : Async A := fun w => (Thrown, w).

(** What the other callbacks of the page (the poll of the backend, the
    submission form, the like buttons) do to the React state while an
    operation is suspended on a call.  Their [localStorage] writes go to
    keys the lifecycle code does not read back during a call. *)
Definition Others : Type := Call -> AppState -> AppState.

(** Nothing else runs. *)
Definition quiet : Others := fun _ s => s.

(** [await p] with other callbacks running during the suspension. *)
Definition awaitAmid {A} (others : Others) (c : Call) (p : Outcome A) : Async A :=
  fun w =>
    let w' := {| react := others c (react w); storage := storage w;
                 observed := observed w ++ [react w];
                 calls := calls w ++ [c] |} in
    match p with
    | Resolved a => (Normal a, w')
    | Rejected => (Thrown, w')
    end.

(** A state update [setX(...)]: [f] is applied to the latest state. *)
Definition update (f : AppState -> AppState) : Async unit :=
  fun w => (Normal tt, {| react := f (react w); storage := storage w;
                          observed := observed w; calls := calls w |}).

Definition updateStorage (f : LocalStorage -> LocalStorage) : Async unit :=
  fun w => (Normal tt, {| react := react w; storage := f (storage w);
                          observed := observed w; calls := calls w |}).

Definition readStorage {A} (f : LocalStorage -> A) : Async A :=
  fun w => (Normal (f (storage w)), w).

Declare Scope async_scope.
Delimit Scope async_scope with async.
Notation "'let*' x ':=' c 'in' k" := (bind c (fun x => k))
  (at level 10, x name, c at level 100, k at level 200) : async_scope.
Notation "c '>>>' k" := (bind c (fun _ => k))
  (at level 90, right associativity) : async_scope.

(** *** State setters *)

Definition setCurrentWord (v : option DailyWord) : Async unit :=
  update (fun s =>
    {| currentWord := v; submissions := submissions s; archive := archive s;
       userName := userName s; previousDayResults := previousDayResults s;
       aiProvider := aiProvider s; apiKeys := apiKeys s;
       enableImages := enableImages s; isLoading := isLoading s;
       isSummarizing := isSummarizing s;
       isRegeneratingImage := isRegeneratingImage s |}).

(** [setCurrentWord(prev => f prev)] *)
Definition setCurrentWordWith (f : option DailyWord -> option DailyWord) : Async unit :=
  update (fun s =>
    {| currentWord := f (currentWord s); submissions := submissions s;
       archive := archive s;
       userName := userName s; previousDayResults := previousDayResults s;
       aiProvider := aiProvider s; apiKeys := apiKeys s;
       enableImages := enableImages s; isLoading := isLoading s;
       isSummarizing := isSummarizing s;
       isRegeneratingImage := isRegeneratingImage s |}).

(** [setSubmissions(prev => f prev)]; [setSubmissions(v)] is the constant
    function. *)
Definition setSubmissions (f : list Submission -> list Submission) : Async unit :=
  update (fun s =>
    {| currentWord := currentWord s; submissions := f (submissions s);
       archive := archive s;
       userName := userName s; previousDayResults := previousDayResults s;
       aiProvider := aiProvider s; apiKeys := apiKeys s;
       enableImages := enableImages s; isLoading := isLoading s;
       isSummarizing := isSummarizing s;
       isRegeneratingImage := isRegeneratingImage s |}).

Definition setArchive (f : list ArchivedWord -> list ArchivedWord) : Async unit :=
  update (fun s =>
    {| currentWord := currentWord s; submissions := submissions s;
       archive := f (archive s);
       userName := userName s; previousDayResults := previousDayResults s;
       aiProvider := aiProvider s; apiKeys := apiKeys s;
       enableImages := enableImages s; isLoading := isLoading s;
       isSummarizing := isSummarizing s;
       isRegeneratingImage := isRegeneratingImage s |}).

Definition setPreviousDayResults (v : option ArchivedWord) : Async unit :=
  update (fun s =>
    {| currentWord := currentWord s; submissions := submissions s;
       archive := archive s;
       userName := userName s; previousDayResults := v;
       aiProvider := aiProvider s; apiKeys := apiKeys s;
       enableImages := enableImages s; isLoading := isLoading s;
       isSummarizing := isSummarizing s;
       isRegeneratingImage := isRegeneratingImage s |}).

Definition setIsLoading (v : bool) : Async unit :=
  update (fun s =>
    {| currentWord := currentWord s; submissions := submissions s;
       archive := archive s;
       userName := userName s; previousDayResults := previousDayResults s;
       aiProvider := aiProvider s; apiKeys := apiKeys s;
       enableImages := enableImages s; isLoading := v;
       isSummarizing := isSummarizing s;
       isRegeneratingImage := isRegeneratingImage s |}).

Definition setIsSummarizing (v : bool) : Async unit :=
  update (fun s =>
    {| currentWord := currentWord s; submissions := submissions s;
       archive := archive s;
       userName := userName s; previousDayResults := previousDayResults s;
       aiProvider := aiProvider s; apiKeys := apiKeys s;
       enableImages := enableImages s; isLoading := isLoading s;
       isSummarizing := v;
       isRegeneratingImage := isRegeneratingImage s |}).

Definition setIsRegeneratingImage (v : bool) : Async unit :=
  update (fun s =>
    {| currentWord := currentWord s; submissions := submissions s;
       archive := archive s;
       userName := userName s; previousDayResults := previousDayResults s;
       aiProvider := aiProvider s; apiKeys := apiKeys s;
       enableImages := enableImages s; isLoading := isLoading s;
       isSummarizing := isSummarizing s;
       isRegeneratingImage := v |}).

(** [localStorage.setItem(`wordData_${d}`, JSON.stringify(v))] when the
    storage accepts the write *)
Definition setWordData (d : string) (v : DailyWord) : Async unit :=
  updateStorage (fun l =>
    {| wordData := <[d := v]> (wordData l);
       ls_currentWord := ls_currentWord l;
       ls_submissions := ls_submissions l;
       ls_archive := ls_archive l;
       ls_userSubmissions := ls_userSubmissions l |}).

(** [localStorage.getItem(`wordData_${d}`)], parsed *)
Definition getWordData (d : string) : Async (option DailyWord) :=
  readStorage (fun l => wordData l !! d).

(** [aiProvider === 'gemini' ? apiKeys.gemini : apiKeys.openai] *)
Definition getApiKey (s : AppState) : string :=
  match aiProvider s with
  | gemini => key_gemini (apiKeys s)
  | openai => key_openai (apiKeys s)
  end.

(** *** Operations

    Each operation is a callback created at some render; it sees the
    state [c] of that render through its closure, while its state
    updates apply to the latest state. *)

(** [generateNewDay], lines 134-190, with [others] running whenever the
    function is suspended.  The write of the day's word (line 182) is
    inside the [try]: when it throws, the [catch] installs the
    placeholder. *)
Definition generateNewDayAmid (others : Others) (c : AppState) (e : Env) : Async unit :=
  (setIsLoading true >>>
   (* 1. archive the word of the previous day *)
   (match currentWord c with
    | Some cw =>
        if 0 <? List.length (submissions c) then
          tryCatch
            (let geminiKey := key_gemini (apiKeys c) in
             if JsString.truthy geminiKey then
               let* defs :=
                 awaitAmid others (CallSummarize (word cw) (submissions c))
                   (summarizeDefinitions e gemini geminiKey (word cw) (submissions c)) in
               let archivedEntry := mkArchivedWord cw defs in
               setArchive (cons archivedEntry) >>>
               setPreviousDayResults (Some archivedEntry)
             else ret tt)
            (ret tt)
        else if List.length (submissions c) =? 0 then
          let archivedEntry := mkArchivedWord cw [noDefinitions] in
          setArchive (cons archivedEntry) >>>
          setPreviousDayResults (Some archivedEntry)
        else ret tt
    | None => ret tt
    end) >>>
   (* 2. clear submissions for the new day *)
   setSubmissions (fun _ => []) >>>
   (* 3. generate a new word and image *)
   tryFinally
     (tryCatch
        (let today := getTodayDateString e in
         let* cachedData := getWordData today in
         match cachedData with
         | Some data => setCurrentWord (Some data) >>> setIsLoading false
         | None =>
             let* w :=
               awaitAmid others CallGenerateWord
                 (generateNonsenseWord e (aiProvider c) (getApiKey c)) in
             let* img :=
               (if enableImages c && JsString.truthy (key_clipdrop (apiKeys c)) then
                  tryCatch
                    (let* i :=
                       awaitAmid others (CallGenerateImage w)
                         (generateImageWithClipDrop e (key_clipdrop (apiKeys c)) w) in
                     ret (Some i))
                    (ret None)
                else ret None) in
             let wordData := mkDailyWord w img (getTodayDateString e) None in
             (if storageWritable e then setWordData today wordData else throw) >>>
             setCurrentWord (Some wordData)
         end)
        (setCurrentWord
           (Some (mkDailyWord "Error" None (getTodayDateString e) None))))
     (setIsLoading false))%async.

(** [generateNewDay] as the only callback that runs. *)
Definition generateNewDay (c : AppState) (e : Env) : Async unit :=
  generateNewDayAmid quiet c e.

(** [tryLoadFromBackend] of the mount effect, lines 194-234: the only
    place that compares a stored word's date with today. *)
Definition tryLoadFromBackend (c : AppState) (e : Env) : Async unit :=
  (let* savedWord := readStorage ls_currentWord in
   let* savedSubmissions := readStorage ls_submissions in
   let today := getTodayDateString e in
   let loadedWord := savedWord in
   let* fromBackend :=
     tryCatch
       (let* data := await CallFetchCurrent (fetchCurrent e) in
        match data with
        | Some d =>
            if String.eqb (date d) today then
              setCurrentWord (Some d) >>> setIsLoading false >>> ret true
            else ret false
        | None => ret false
        end)
       (ret false) in
   if (fromBackend : bool) then ret tt
   else
     match loadedWord with
     | Some lw =>
         if String.eqb (date lw) today then
           setCurrentWord (Some lw) >>>
           (match savedSubmissions with
            | Some l => setSubmissions (fun _ => l)
            | None => ret tt
            end) >>>
           setIsLoading false
         else generateNewDay c e
     | None => generateNewDay c e
     end)%async.

(** [saveStateToLocalStorage] as run by the persisting effect, lines
    120-132 and 294-297: a [null] current word is not written. *)
Definition saveStateToLocalStorage : Async unit :=
  fun w =>
    updateStorage (fun l =>
      {| wordData := wordData l;
         ls_currentWord :=
           match currentWord (react w) with
           | Some cw => Some cw
           | None => ls_currentWord l
           end;
         ls_submissions := Some (submissions (react w));
         ls_archive := Some (archive (react w));
         ls_userSubmissions := ls_userSubmissions l |}) w.

(** [addSubmission], lines 307-329. *)
Definition addSubmission (c : AppState) (e : Env) (text : string) : Async unit :=
  (if negb (JsString.truthy (JsString.trim text)) then ret tt
   else
     let finalUsername :=
       if JsString.truthy (userName c) then userName c else getRandomUsername e in
     let newSubmission :=
       {| id := generateUniqueId e; text := JsString.trim text;
          username := finalUsername; likes := 0;
          createdAt := None; sub_image := None |} in
     setSubmissions (fun prev => prev ++ [newSubmission]) >>>
     updateStorage (fun l =>
       {| wordData := wordData l;
          ls_currentWord := ls_currentWord l;
          ls_submissions := ls_submissions l;
          ls_archive := ls_archive l;
          ls_userSubmissions := ls_userSubmissions l ++ [newSubmission] |}))%async.

(** [addSubmissionFromServer], lines 331-334. *)
Definition addSubmissionFromServer (submission : option Submission) : Async unit :=
  match submission with
  | Some s =>
      if negb (JsString.truthy (text s)) then ret tt
      else setSubmissions (fun prev => prev ++ [s])
  | None => ret tt
  end.

(** [likeSubmission], lines 336-340.  The function returns nothing and
    throws nothing. *)
Definition likeSubmission (i : string) : Async unit :=
  setSubmissions (fun prev =>
    map (fun sub =>
           if String.eqb (id sub) i then
             {| id := id sub; text := text sub; username := username sub;
                likes := likes sub + 1;
                createdAt := createdAt sub; sub_image := sub_image sub |}
           else sub) prev).

(** [manuallySetWord], lines 347-367. *)
Definition manuallySetWord (c : AppState) (e : Env) (w : string) : Async unit :=
  (setIsLoading true >>>
   tryFinally
     (tryCatch
        (let* img :=
           (if JsString.truthy (key_clipdrop (apiKeys c)) then
              tryCatch
                (let* i :=
                   await (CallGenerateImage w)
                     (generateImageWithClipDrop e (key_clipdrop (apiKeys c)) w) in
                 ret (Some i))
                (ret None)
            else ret None) in
         let newWord := mkDailyWord w img (getTodayDateString e) None in
         setCurrentWord (Some newWord) >>>
         setSubmissions (fun _ => []))
        (ret tt))
     (setIsLoading false))%async.

(** [triggerSummarization], lines 369-390.  The [generateNewDay] it awaits
    still has the word and the pool of the same render in its closure; its
    summarization request is a second, separate one. *)
Definition triggerSummarization (c : AppState) (e : Env) : Async unit :=
  match currentWord c with
  | None => ret tt
  | Some cw =>
      if List.length (submissions c) =? 0 then ret tt
      else
        (setIsSummarizing true >>>
         tryFinally
           (tryCatch
              (let geminiKey := key_gemini (apiKeys c) in
               let* defs :=
                 await (CallSummarize (word cw) (submissions c))
                   (summarizeDefinitions e gemini
                      (if JsString.truthy geminiKey then geminiKey else getApiKey c)
                      (word cw) (submissions c)) in
               let archivedEntry := mkArchivedWord cw defs in
               setArchive (cons archivedEntry) >>>
               setPreviousDayResults (Some archivedEntry) >>>
               generateNewDay c (afterSummary e))
              (ret tt))
           (setIsSummarizing false))%async
  end.

(** [regenerateImage], lines 392-408. *)
Definition regenerateImage (c : AppState) (e : Env) : Async unit :=
  match currentWord c with
  | None => ret tt
  | Some cw =>
      (setIsRegeneratingImage true >>>
       tryFinally
         (tryCatch
            (if JsString.truthy (key_clipdrop (apiKeys c)) then
               let* i :=
                 await (CallGenerateImage (word cw))
                   (generateImageWithClipDrop e (key_clipdrop (apiKeys c)) (word cw)) in
               setCurrentWordWith (fun prev =>
                 match prev with
                 | Some p => Some (mkDailyWord (word p) (Some i) (date p) (aiMeaning p))
                 | None => None
                 end)
             else ret tt)
            (ret tt))
         (setIsRegeneratingImage false))%async
  end.

(** Invoking the callback of the latest render: its closure holds the
    current state. *)
Definition invoke {A} (op : AppState -> Env -> Async A) (e : Env) : Async A :=
  fun w => op (react w) e w.

(** The world after a computation. *)
Definition after {A} (m : Async A) (w : World) : World := snd (m w).

(** Whether a computation completed without throwing. *)
Definition completes {A} (m : Async A) (w : World) : bool :=
  match fst (m w) with Normal _ => true | Thrown => false end.

(** [generateNewDay] called once per environment of [es], one after the
    other, each time from the latest render. *)
Fixpoint generateNewDayTimes (es : list Env) (w : World) : World :=
  match es with
  | [] => w
  | e :: es' => generateNewDayTimes es' (after (invoke generateNewDay e) w)
  end.

(** The ledger part of the state. *)
Definition ledger (s : AppState)
  : option DailyWord * list Submission * list ArchivedWord :=
  (currentWord s, submissions s, archive s).

(** The ledger changes in one step: every state seen while the operation
    runs carries the ledger from before it or the ledger from after it. *)
Definition singleTransaction (before final : AppState) (seen : list AppState)
  : Prop :=
  forall s, In s seen -> ledger s = ledger before \/ ledger s = ledger final.

(** A fresh page load: the initial React state of the provider (line
    81-114) over the surviving [localStorage]. *)
Definition initialState (p : AiProvider) (k : ApiKeys) (img : bool) : AppState :=
  {| currentWord := None; submissions := []; archive := [];
     userName := ""; previousDayResults := None;
     aiProvider := p; apiKeys := k; enableImages := img;
     isLoading := true; isSummarizing := false;
     isRegeneratingImage := false |}.

Definition reload (w : World) : World :=
  {| react := initialState (aiProvider (react w)) (apiKeys (react w))
                (enableImages (react w));
     storage := storage w; observed := []; calls := [] |}.

End AppStateContext.

(** ** The generation gateway: word normalisation

    Both [/api/generate] (backend, lines 268-271) and the serverless
    [handler] ([src/api/generate.js], lines 15-18) turn the model's answer
    into the word in the same way. *)

Module Gateway.

(** [(response.text || '').trim()] *)
Definition rawText (responseText : option string) : string :=
  JsString.trim
    (match responseText with
     | Some t => if JsString.truthy t then t else ""
     | None => ""
     end).

(** [raw.replace(/[^a-zA-Z]/g, '').slice(0, 12)] *)
Definition normalizeWord (raw : string) : string :=
  JsString.slice0 12 (JsString.stripNonAlpha raw).

End Gateway.

(** ** The backend: Express server over [data.json] *)

Module Server.

(** The document [{ current, submissions, archive }] in [data.json]. *)
Record Data : Type := mkData {
  current : option DailyWord;
  submissions : list Submission;
  archive : list ArchivedWord
}.

Inductive Response (A : Type) : Type :=
| Json (status : nat) (body : A)
| Failure (status : nat) (error : string)
| NoResponse.
Arguments Json {A} status body.
Arguments Failure {A} status error.
Arguments NoResponse {A}.

(** Process environment and external answers for one request. *)
Record Env : Type := mkEnv {
  GEMINI_API_KEY : option string;
  today : string;
  now : string;
  uuidv4 : string;
  randomUsername : string;
  (** [client.models.generateContent] for the word prompt: the
      [response.text], possibly [undefined] *)
  generateWordText : Outcome (option string);
  (** the same for the meaning prompt of a word *)
  generateMeaningText : string -> Outcome (option string);
  (** the ClipDrop text-to-image request for a word: [Some] base64 data
      when [response.ok], [None] otherwise; [Rejected] when it throws *)
  clipdropTextToImage : string -> Outcome (option string);
  (** the image of a submission, by provider name and text *)
  providerImage : string -> string -> Outcome (option string);
  (** whether [fs.writeFileSync] succeeds *)
  diskWritable : bool
}.

(** A request field or environment variable that is truthy: neither
    missing nor the empty string. *)
Definition presentKey (k : option string) : option string :=
  match k with
  | Some s => if JsString.truthy s then Some s else None
  | None => None
  end.

(** [generateImage] inside [/api/submit], lines 173-240: every provider
    branch swallows its errors. *)
Definition generateImage (e : Env) (imageProvider : option string) (text : string)
  : option string :=
  match imageProvider with
  | Some p =>
      if String.eqb p "gemini" || String.eqb p "chatgpt" || String.eqb p "clipdrop" then
        match providerImage e p text with
        | Resolved r => r
        | Rejected => None
        end
      else None
  | None => None
  end.

(** [POST /api/submit], lines 165-250. *)
Definition submit (e : Env) (text username imageProvider : option string) (data : Data)
  : Response Submission * Data :=
  match presentKey text with
  | None => (Failure 400 "Text is required", data)
  | Some t =>
      if negb (JsString.truthy (JsString.trim t)) then
        (Failure 400 "Text is required", data)
      else
        let user :=
          match presentKey username with
          | Some u =>
              if JsString.truthy (JsString.trim u) then JsString.trim u
              else randomUsername e
          | None => randomUsername e
          end in
        let img := generateImage e imageProvider t in
        let submission :=
          {| id := uuidv4 e; text := JsString.trim t; username := user;
             likes := 0; createdAt := Some (now e); sub_image := img |} in
        if diskWritable e then
          (Json 200 submission,
           {| current := current data;
              submissions := submissions data ++ [submission];
              archive := archive data |})
        else (NoResponse, data)
  end.

(** [POST /api/generate], lines 258-317. *)
Definition generate (e : Env) (geminiKey : option string) (data : Data)
  : Response DailyWord * Data :=
  let apiKey :=
    match presentKey geminiKey with
    | Some k => Some k
    | None => presentKey (GEMINI_API_KEY e)
    end in
  match apiKey with
  | None => (Failure 500 "GEMINI_API_KEY not configured", data)
  | Some k =>
      if String.eqb k "PLACEHOLDER_API_KEY" then
        (Failure 500 "GEMINI_API_KEY not configured", data)
      else
        match generateWordText e with
        | Rejected => (Failure 500 "Generation failed", data)
        | Resolved responseText =>
            let raw := Gateway.rawText responseText in
            let word := Gateway.normalizeWord raw in
            match generateMeaningText e word with
            | Rejected => (Failure 500 "Generation failed", data)
            | Resolved meaningText =>
                let aiMeaning := Gateway.rawText meaningText in
                let image :=
                  match clipdropTextToImage e word with
                  | Resolved r => r
                  | Rejected => None
                  end in
                let cur := mkDailyWord word image (today e) (Some aiMeaning) in
                if diskWritable e then
                  (Json 200 cur,
                   {| current := Some cur; submissions := [];
                      archive := archive data |})
                else (Failure 500 "Generation failed", data)
            end
        end
  end.

(** The serverless [handler] of [src/api/generate.js], lines 3-52; it
    keeps no state.  The text of the caught error, which the handler
    appends to its last message, is left out. *)
Definition handler (e : Env) (method : string) : Response DailyWord :=
  if negb (String.eqb method "POST") then Failure 405 "Method not allowed"
  else
    match presentKey (GEMINI_API_KEY e) with
    | None => Failure 500 "GEMINI_API_KEY not configured"
    | Some k =>
        if String.eqb k "PLACEHOLDER_API_KEY" then
          Failure 500 "GEMINI_API_KEY not configured"
        else
          match generateWordText e with
          | Rejected => Failure 500 "Generation failed: "
          | Resolved responseText =>
              let raw := Gateway.rawText responseText in
              let word := Gateway.normalizeWord raw in
              let image :=
                match clipdropTextToImage e word with
                | Resolved r => r
                | Rejected => None
                end in
              Json 200 (mkDailyWord word image (today e) None)
          end
    end.

End Server.

(** ** Concrete scenarios *)

Module Scenario.
Import AppStateContext.

Definition keys : ApiKeys :=
  {| key_gemini := "AIza-test"; key_openai := ""; key_clipdrop := "clip-test" |}.

Definition blorvek : DailyWord :=
  {| word := "Blorvek"; image := None; date := "2024-01-01"; aiMeaning := None |}.

Definition feeling : Submission :=
  {| id := "s1"; text := "a floating feeling"; username := "Curious-Duck-7";
     likes := 0; createdAt := None; sub_image := None |}.

Definition emptyStorage : LocalStorage :=
  {| wordData := ∅; ls_currentWord := None; ls_submissions := None;
     ls_archive := None; ls_userSubmissions := [] |}.

(** The state of the spec's concrete scenario: Blorvek of 2024-01-01 is
    current, with [subs] in the pool. *)
Definition stateWith (subs : list Submission) : AppState :=
  {| currentWord := Some blorvek; submissions := subs; archive := [];
     userName := ""; previousDayResults := None;
     aiProvider := gemini; apiKeys := keys; enableImages := true;
     isLoading := false; isSummarizing := false;
     isRegeneratingImage := false |}.

Definition worldWith (subs : list Submission) : World :=
  {| react := stateWith subs; storage := emptyStorage;
     observed := []; calls := [] |}.

(** An environment on day [d] in which word generation answers [w],
    image generation answers [i] and summarization answers [s]. *)
Definition envOn (d : string) (w : Outcome string) (i : Outcome string)
    (s : Outcome (list string)) : Env :=
  {| today := d;
     summarizeDefinitions := fun _ _ _ _ => s;
     generateNonsenseWord := fun _ _ => w;
     generateImageWithClipDrop := fun _ _ => i;
     fetchCurrent := Rejected;
     generateUniqueId := "k3x9"; getRandomUsername := "Sleepy-Orb-42";
     summarizeAgain := fun _ _ _ _ => s;
     storageWritable := true |}.

Definition zantrel : DailyWord :=
  {| word := "Zantrel"; image := None; date := "2024-01-02"; aiMeaning := None |}.

Definition glimmer : DailyWord :=
  {| word := "Glimmer"; image := None; date := "2024-01-02"; aiMeaning := None |}.

(** The second of January, with Zantrel current and cached for the day
    and one interpretation in the pool. *)
Definition sameDayWorld : World :=
  {| react :=
       {| currentWord := Some zantrel; submissions := [feeling]; archive := [];
          userName := ""; previousDayResults := None;
          aiProvider := gemini; apiKeys := keys; enableImages := true;
          isLoading := false; isSummarizing := false;
          isRegeneratingImage := false |};
     storage :=
       {| wordData := {["2024-01-02" := zantrel]};
          ls_currentWord := Some zantrel; ls_submissions := Some [feeling];
          ls_archive := Some []; ls_userSubmissions := [] |};
     observed := []; calls := [] |}.

(** A day on which every external service is down. *)
Definition outage : Env := envOn "2024-01-02" Rejected Rejected Rejected.

(** A day on which word generation and summarization answer and image
    generation fails. *)
Definition goodDay : Env :=
  envOn "2024-01-02" (Resolved "Zantrel") Rejected
    (Resolved ["a floating feeling"]).

(** A page load while the backend already serves a word of today. *)
Definition backendHasToday : Env :=
  {| today := "2024-01-02";
     summarizeDefinitions := fun _ _ _ _ => Rejected;
     generateNonsenseWord := fun _ _ => Rejected;
     generateImageWithClipDrop := fun _ _ => Rejected;
     fetchCurrent := Resolved (Some glimmer);
     generateUniqueId := "k3x9"; getRandomUsername := "Sleepy-Orb-42";
     summarizeAgain := fun _ _ _ _ => Rejected;
     storageWritable := true |}.

(** The poll of the backend answers with [l] while word generation is
    awaited, and nothing else happens. *)
Definition pollDuringGeneration (l : list Submission) : Others :=
  fun call s =>
    match call with
    | CallGenerateWord =>
        {| currentWord := currentWord s; submissions := l; archive := archive s;
           userName := userName s; previousDayResults := previousDayResults s;
           aiProvider := aiProvider s; apiKeys := apiKeys s;
           enableImages := enableImages s; isLoading := isLoading s;
           isSummarizing := isSummarizing s;
           isRegeneratingImage := isRegeneratingImage s |}
    | _ => s
    end.

(** A text of 281 characters. *)
Definition longText : string := JsString.repeat "a" 281.

(** A backend request environment in which the model answers [t] to the
    word prompt. *)
Definition serverEnv (t : Outcome (option string)) : Server.Env :=
  {| Server.GEMINI_API_KEY := Some "AIza-test";
     Server.today := "2024-01-02";
     Server.now := "2024-01-02T09:30:00.000Z";
     Server.uuidv4 := "1b4e28ba-2fa1-41d2-883f-0016d3cca427";
     Server.randomUsername := "Vivid-Quasar-3";
     Server.generateWordText := t;
     Server.generateMeaningText := fun _ => Resolved (Some "A hush between tides.");
     Server.clipdropTextToImage := fun _ => Resolved None;
     Server.providerImage := fun _ _ => Resolved None;
     Server.diskWritable := true |}.

Definition emptyData : Server.Data :=
  {| Server.current := None; Server.submissions := []; Server.archive := [] |}.

End Scenario.

(** ** The rest of the provider: polling, user name, persistence *)

Module Provider.
Import AppStateContext.

(** The outcome of [fetch(url)] followed by [r.json()]: the response is
    not [ok], or it is and carries a body, possibly [null]. *)
Inductive FetchResult (A : Type) : Type :=
| NotOk
| OkBody (body : option A).
Arguments NotOk {A}.
Arguments OkBody {A} body.

(** An [await] on something that is not one of the generation services:
    the function is suspended, nothing is logged. *)
Definition suspend {A} (p : Outcome A) : Async A :=
  fun w =>
    let w' := {| react := react w; storage := storage w;
                 observed := observed w ++ [react w];
                 calls := calls w |} in
    match p with
    | Resolved a => (Normal a, w')
    | Rejected => (Thrown, w')
    end.

(** [fetchSubmissions] of the mount effect, lines 237-248; it runs once on
    mount and then every 8 seconds.  [r] is the answer of
    [/api/submissions]. *)
Definition fetchSubmissions (r : Outcome (FetchResult (list Submission))) : Async unit :=
  tryCatch
    (let* res := suspend r in
     match res with
     | OkBody body =>
         let l := match body with Some l => l | None => [] end in
         setSubmissions (fun _ => l) >>>
         updateStorage (fun s =>
           {| wordData := wordData s;
              ls_currentWord := ls_currentWord s;
              ls_submissions := Some l;
              ls_archive := ls_archive s;
              ls_userSubmissions := ls_userSubmissions s |})
     | NotOk => ret tt
     end)%async
    (ret tt).

Definition setUsername (v : string) : Async unit :=
  update (fun s =>
    {| currentWord := currentWord s; submissions := submissions s;
       archive := archive s;
       userName := v; previousDayResults := previousDayResults s;
       aiProvider := aiProvider s; apiKeys := apiKeys s;
       enableImages := enableImages s; isLoading := isLoading s;
       isSummarizing := isSummarizing s;
       isRegeneratingImage := isRegeneratingImage s |}).

(** [updateUsername], lines 342-345. *)
Definition updateUsername (name : string) : Async unit :=
  let newName :=
    if JsString.truthy (JsString.trim name) then JsString.trim name
    else "Anonymous" in
  setUsername newName.

(** A page load, lines 192-297: the mount effect starts
    [tryLoadFromBackend] (with the closure of the first render) and
    [fetchSubmissions], and the persisting effect stores the state they
    end with.  [poll] is the answer of [/api/submissions]; [pollFirst]
    says whether it arrives before the answer of [/api/current] or after
    the loader has handled that one.  (An answer that arrives while the
    loader's [generateNewDay] is suspended ends in the same state as one
    that arrives after it, since the loader writes the pool only before
    its first suspension.)  The loader reads the storage when the effect
    starts, so when the poll answers first the loader still runs over the
    storage of the mount; what the poll wrote there is written again by
    the persisting effect.  Everything of the mount effect below its
    [return] statement (line 253) is never run, so neither the stored
    archive nor the stored user name is read back. *)
Definition pageLoad (e : Env) (poll : Outcome (FetchResult (list Submission)))
    (pollFirst : bool) (w : World) : World :=
  let w0 := reload w in
  let loader := tryLoadFromBackend (react w0) e in
  let w1 :=
    if pollFirst then
      let wp := after (fetchSubmissions poll) w0 in
      after loader {| react := react wp; storage := storage w0;
                      observed := observed wp; calls := calls wp |}
    else after (fetchSubmissions poll) (after loader w0) in
  after saveStateToLocalStorage w1.

End Provider.

(** ** [src/components/LiveSubmissionsFeed.tsx] *)

Module LiveSubmissionsFeed.

(** Insertion of [x], which precedes all of [l] in the pool, into the
    ordered list [l]: before the first entry that does not have more
    likes. *)
Fixpoint insertByLikes (x : Submission) (l : list Submission) : list Submission :=
  match l with
  | [] => [x]
  | y :: r => if likes x <? likes y then y :: insertByLikes x r else x :: y :: r
  end.

(** [[...submissions].sort((a, b) => b.likes - a.likes)], line 39-41.
    [Array.prototype.sort] is a stable sort; it is given here by insertion
    from the right, which is stable for this comparator. *)
Definition sortedSubmissions (subs : list Submission) : list Submission :=
  fold_right insertByLikes [] subs.

End LiveSubmissionsFeed.

(** ** [src/components/SubmissionForm.tsx] *)

Module SubmissionForm.
Import AppStateContext.

(** [res.ok] *)
Definition ok (status : nat) : bool := (200 <=? status) && (status <=? 299).

(** [handleSubmit], lines 21-49, against the backend's [/api/submit].
    [backend] is [None] when the request fails to reach the backend (the
    [catch] branch); otherwise it is the backend's environment for the
    request.  A request the backend fails to answer, because its write
    threw, ends as a failed request too. *)
Definition handleSubmit (c : AppState) (e : Env) (backend : option Server.Env)
    (text localUsername imageProvider : string)
    (w : World) (d : Server.Data) : World * Server.Data :=
  if JsString.truthy (JsString.trim text) then
    match backend with
    | None => (after (addSubmission c e text) w, d)
    | Some se =>
        match Server.submit se (Some text)
                (if JsString.truthy localUsername then Some localUsername else None)
                (Some imageProvider) d with
        | (Server.Json status s, d') =>
            if ok status then (after (addSubmissionFromServer (Some s)) w, d')
            else (after (addSubmission c e text) w, d')
        | (Server.Failure status _, d') =>
            if ok status then (w, d')
            else (after (addSubmission c e text) w, d')
        | (Server.NoResponse, d') => (after (addSubmission c e text) w, d')
        end
    end
  else (w, d).

End SubmissionForm.

(** ** The admin panel: the handlers of [AdminPanel] (third file of
    [src/api/generate.js], lines 170-260) *)

Module AdminPanel.
Import AppStateContext.


(** [handleSetWord], lines 170-184.  [loading] is
    [loadingState === LOADING_STATES.LOADING]. *)
Definition handleSetWord (c : AppState) (e : Env) (loading : bool)
    (manualWord : string) : Async unit :=
  if negb (JsString.truthy (JsString.trim manualWord)) || loading then ret tt
  else manuallySetWord c e (JsString.trim manualWord).


End AdminPanel.

(** ** The backend: environment file, request sequences, image endpoint *)

Module Backend.

(** [s.split(sep)] for a one-character separator. *)
Fixpoint split (sep : ascii) (s : string) : list string :=
  match s with
  | EmptyString => [EmptyString]
  | String c r =>
      if Ascii.eqb c sep then EmptyString :: split sep r
      else
        match split sep r with
        | h :: t => String c h :: t
        | [] => [String c EmptyString]
        end
  end.

(** [s.indexOf(c)] for a one-character pattern; [None] stands for -1. *)
Fixpoint indexOf (c : ascii) (s : string) : option nat :=
  match s with
  | EmptyString => None
  | String a r =>
      if Ascii.eqb a c then Some 0
      else match indexOf c r with Some n => Some (S n) | None => None end
  end.

(** [s.substring(n)] *)
Fixpoint dropChars (n : nat) (s : string) : string :=
  match n, s with
  | S n', String _ r => dropChars n' r
  | _, _ => s
  end.

(** [s.startsWith(c)] for a one-character prefix. *)
Definition startsWith (c : ascii) (s : string) : bool :=
  match s with
  | String a _ => Ascii.eqb a c
  | EmptyString => false
  end.

(** The body of the [forEach] over the lines of [.env.local], lines
    114-124, acting on [process.env]. *)
Definition loadLine (env : gmap string string) (line : string) : gmap string string :=
  let line := JsString.trim line in
  if JsString.truthy line && negb (startsWith "#" line) then
    match indexOf "=" line with
    | Some eqIndex =>
        if 0 <? eqIndex then
          let key := JsString.trim (JsString.slice0 eqIndex line) in
          let value := JsString.trim (dropChars (eqIndex + 1) line) in
          if JsString.truthy key && JsString.truthy value then <[key := value]> env
          else env
        else env
    | None => env
    end
  else env.

(** Loading [.env.local], lines 111-126; [file] is [None] when the file
    does not exist. *)
Definition loadEnv (file : option string) (env : gmap string string)
  : gmap string string :=
  match file with
  | Some envContent => fold_left loadLine (split "010" envContent) env
  | None => env
  end.

(** The document written when [data.json] does not exist, lines 136-138. *)
Definition initialData : Server.Data :=
  {| Server.current := None; Server.submissions := []; Server.archive := [] |}.

(** The requests that write the document. *)
Inductive Request : Type :=
| PostSubmit (e : Server.Env) (text username imageProvider : option string)
| PostGenerate (e : Server.Env) (geminiKey : option string).

Definition serve (d : Server.Data) (r : Request) : Server.Data :=
  match r with
  | PostSubmit e t u p => snd (Server.submit e t u p d)
  | PostGenerate e k => snd (Server.generate e k d)
  end.

(** The document after a sequence of requests, served one after the
    other. *)
Definition serveAll (rs : list Request) (d : Server.Data) : Server.Data :=
  fold_left serve rs d.

(** The first part that carries inline data, lines 346-351; a part is
    given by its [inlineData.data], if any. *)
Fixpoint firstInlineData (parts : list (option string)) : option string :=
  match parts with
  | [] => None
  | p :: rest =>
      match Server.presentKey p with
      | Some data => Some data
      | None => firstInlineData rest
      end
  end.

(** [POST /api/generate-image], lines 320-360.  [adminToken] is
    [process.env.ADMIN_TOKEN], [provided] the [x-admin-token] header, and
    [answer] what the image model returns for the request: the parts of
    the first candidate, or [None] when there is no candidate. *)
Definition generateImageRoute (e : Server.Env) (adminToken provided : option string)
    (answer : Outcome (option (list (option string)))) : Server.Response string :=
  let denied :=
    match Server.presentKey adminToken with
    | Some token =>
        match Server.presentKey provided with
        | Some p => negb (String.eqb p token)
        | None => true
        end
    | None => false
    end in
  if denied then Server.Failure 403 "Invalid admin token"
  else
    match Server.presentKey (Server.GEMINI_API_KEY e) with
    | None => Server.Failure 500 "Server Gemini API key not configured."
    | Some _ =>
        match answer with
        | Rejected => Server.Failure 500 "Image generation failed"
        | Resolved None => Server.Failure 500 "Image generation failed"
        | Resolved (Some parts) =>
            match firstInlineData parts with
            | Some b64 => Server.Json 200 b64
            | None => Server.Failure 500 "Image generation failed"
            end
        end
    end.

End Backend.

(** * Properties *)

Import AppStateContext.

(** ** String helpers *)

Lemma truthy_false_iff (s : string) : JsString.truthy s = false <-> s = "".
Proof. destruct s; simpl; split; congruence. Qed.

Lemma truthy_true_iff (s : string) : JsString.truthy s = true <-> s <> "".
Proof. destruct s; simpl; split; congruence. Qed.

Lemma stripNonAlpha_alpha (s : string) :
  JsString.forallb JsString.isAlpha (JsString.stripNonAlpha s) = true.
Proof.
  induction s as [|c r IH]; simpl; [reflexivity|].
  destruct (JsString.isAlpha c) eqn:Hc; simpl; [rewrite Hc|]; exact IH.
Qed.

Lemma slice0_forallb (p : ascii -> bool) (n : nat) (s : string) :
  JsString.forallb p s = true -> JsString.forallb p (JsString.slice0 n s) = true.
Proof.
  revert s; induction n as [|n IH]; intros [|c r]; simpl; try reflexivity.
  intros H. apply andb_true_iff in H as [Hc Hr].
  rewrite Hc. simpl. apply IH, Hr.
Qed.

Lemma slice0_length (n : nat) (s : string) :
  String.length (JsString.slice0 n s) <= n.
Proof.
  revert s; induction n as [|n IH]; intros [|c r]; simpl; try lia.
  specialize (IH r). lia.
Qed.

Lemma normalizeWord_shape (raw : string) :
  JsString.forallb JsString.isAlpha (Gateway.normalizeWord raw) = true /\
  String.length (Gateway.normalizeWord raw) <= 12.
Proof.
  unfold Gateway.normalizeWord. split.
  - apply slice0_forallb, stripNonAlpha_alpha.
  - apply slice0_length.
Qed.

Example trim_examples :
  JsString.trim "" = "" /\ JsString.trim " " = "" /\
  JsString.trim "  a floating feeling " = "a floating feeling".
Proof. repeat split. Qed.

Example normalizeWord_examples :
  Gateway.normalizeWord "Zan-trel 42" = "Zantrel" /\
  Gateway.normalizeWord "Quillonvesperine" = "Quillonvespe".
Proof. repeat split. Qed.

(** The concrete scenario of the specification: Blorvek of 2024-01-01 with
    one interpretation, and a call on 2024-01-02. *)
Example rollover_scenario :
  ledger (react (after (invoke generateNewDay Scenario.goodDay)
                   (Scenario.worldWith [Scenario.feeling])))
  = (Some Scenario.zantrel, [],
     [mkArchivedWord Scenario.blorvek ["a floating feeling"]]).
Proof. reflexivity. Qed.

(** The same scenario when the poll of the backend answers with the old
    pool while word generation is awaited: the call ends with the old
    pool next to the new word. *)
Example rollover_amid_poll :
  ledger (react (after (generateNewDayAmid
                          (Scenario.pollDuringGeneration [Scenario.feeling])
                          (Scenario.stateWith [Scenario.feeling]) Scenario.goodDay)
                   (Scenario.worldWith [Scenario.feeling])))
  = (Some Scenario.zantrel, [Scenario.feeling],
     [mkArchivedWord Scenario.blorvek ["a floating feeling"]]).
Proof. reflexivity. Qed.

(** ** Unfolding the async monad *)

Ltac unfold_async :=
  unfold after, completes, invoke,
    setCurrentWord, setCurrentWordWith, setSubmissions, setArchive,
    setPreviousDayResults, setIsLoading, setIsSummarizing,
    setIsRegeneratingImage, setWordData, getWordData,
    tryFinally, tryCatch, bind, ret, throw, await, awaitAmid, quiet,
    update, updateStorage, readStorage, getTodayDateString.


(** ** Facts about [generateNewDay] *)

Ltac split_all := repeat match goal with |- _ /\ _ => split end.

(** Case analysis on everything [generateNewDay] branches on. *)
Ltac generateNewDay_cases c e w :=
  unfold generateNewDay, generateNewDayAmid; unfold_async;
  destruct (currentWord c) as [?cw|] eqn:?Hcur;
  [ destruct (submissions c) as [|?sub ?subs] eqn:?Hsubs; cbn;
    [ | destruct (JsString.truthy (key_gemini (apiKeys c))) eqn:?Hkey; cbn;
        [ match goal with
          | |- context [summarizeDefinitions e ?p ?k ?x ?l] =>
              destruct (summarizeDefinitions e p k x l) eqn:?Hsum
          end; cbn | ] ]
  | cbn ];
  (destruct (wordData (storage w) !! today e) as [?cached|] eqn:?Hcache; cbn;
   [ | destruct (generateNonsenseWord e (aiProvider c) (getApiKey c))
         as [?nw|] eqn:?Hword; cbn;
       [ destruct (enableImages c && JsString.truthy (key_clipdrop (apiKeys c)))
           eqn:?Himg; cbn;
         [ match goal with
           | |- context [generateImageWithClipDrop e ?k ?x] =>
               destruct (generateImageWithClipDrop e k x) eqn:?Hgen
           end; cbn | ];
         destruct (storageWritable e) eqn:?Hwrite; cbn
       | ] ]).

Lemma generateNewDay_completes (c : AppState) (e : Env) (w : World) :
  completes (generateNewDay c e) w = true.
Proof. generateNewDay_cases c e w; reflexivity. Qed.

Lemma generateNewDay_clears (c : AppState) (e : Env) (w : World) :
  submissions (react (after (generateNewDay c e) w)) = [].
Proof. generateNewDay_cases c e w; reflexivity. Qed.

Lemma generateNewDay_settings (c : AppState) (e : Env) (w : World) :
  let s' := react (after (generateNewDay c e) w) in
  aiProvider s' = aiProvider (react w) /\ apiKeys s' = apiKeys (react w) /\
  enableImages s' = enableImages (react w).
Proof. generateNewDay_cases c e w; auto. Qed.

Lemma generateNewDay_cache_hit (c : AppState) (e : Env) (w : World) (d : DailyWord) :
  wordData (storage w) !! today e = Some d ->
  let w' := after (generateNewDay c e) w in
  currentWord (react w') = Some d /\ storage w' = storage w.
Proof.
  intros Hd. generateNewDay_cases c e w; try congruence.
  all: split; [congruence | reflexivity].
Qed.

Lemma generateNewDay_cache_fill (c : AppState) (e : Env) (w : World) (x : string) :
  wordData (storage w) !! today e = None ->
  generateNonsenseWord e (aiProvider c) (getApiKey c) = Resolved x ->
  storageWritable e = true ->
  let w' := after (generateNewDay c e) w in
  exists wd, currentWord (react w') = Some wd /\
             wordData (storage w') !! today e = Some wd /\
             word wd = x /\ date wd = today e.
Proof.
  intros Hnone Hx Hw. generateNewDay_cases c e w; try congruence.
  all: eexists; split_all; [reflexivity | apply lookup_insert_eq | cbn; congruence | reflexivity].
Qed.

Lemma invoke_after {A} (op : AppState -> Env -> Async A) (e : Env) (w : World) :
  after (invoke op e) w = after (op (react w) e) w.
Proof. reflexivity. Qed.

Lemma generateNewDayTimes_cached (d : string) (cw : DailyWord) (es : list Env) :
  Forall (fun e => today e = d) es -> es <> [] ->
  forall w, wordData (storage w) !! d = Some cw ->
    currentWord (react (generateNewDayTimes es w)) = Some cw.
Proof.
  induction es as [|e es IH]; intros Hday Hne w Hc; [congruence|].
  inversion Hday as [|? ? He Hes]; subst.
  destruct (generateNewDay_cache_hit (react w) e w cw Hc) as [Hcur Hst].
  destruct es as [|e' es'].
  - exact Hcur.
  - cbn [generateNewDayTimes]. apply IH; [exact Hes | congruence |].
    rewrite invoke_after, Hst. exact Hc.
Qed.

Lemma generateNewDayTimes_clears (es : list Env) :
  es <> [] -> forall w, submissions (react (generateNewDayTimes es w)) = [].
Proof.
  induction es as [|e es IH]; intros Hne w; [congruence|].
  destruct es as [|e' es'].
  - apply generateNewDay_clears.
  - cbn [generateNewDayTimes]. apply IH. congruence.
Qed.

(** The mount-time loader with a stored word of today and no word of today
    on the backend: the stored word is shown and nothing is generated. *)
Lemma tryLoadFromBackend_stored_today (c : AppState) (e : Env) (w : World)
    (lw : DailyWord) :
  ls_currentWord (storage w) = Some lw ->
  date lw = today e ->
  (forall d, fetchCurrent e = Resolved (Some d) -> date d <> today e) ->
  let w' := after (tryLoadFromBackend c e) w in
  currentWord (react w') = Some lw /\
  archive (react w') = archive (react w) /\
  storage w' = storage w /\
  calls w' = calls w ++ [CallFetchCurrent].
Proof.
  intros Hlw Hdate Hback. unfold tryLoadFromBackend. unfold_async. cbn.
  rewrite Hlw.
  destruct (fetchCurrent e) as [[d|]|] eqn:Hf; cbn.
  - specialize (Hback d eq_refl). apply String.eqb_neq in Hback.
    rewrite Hback. cbn. rewrite Hdate, String.eqb_refl. cbn.
    destruct (ls_submissions (storage w)); cbn; auto.
  - rewrite Hdate, String.eqb_refl. cbn.
    destruct (ls_submissions (storage w)); cbn; auto.
  - rewrite Hdate, String.eqb_refl. cbn.
    destruct (ls_submissions (storage w)); cbn; auto.
Qed.

(** C3 (amended).  [generateNewDay] has no same-day shortcut of its own, but
    the word it yields is stable within a day: if today's word is already
    cached, or the first call's word generation answers and the day's
    word can be written to the cache, then after any number of further
    calls on the same day the current word is the one the first call
    produced, and the pool is empty.  The comparison of the
    stored word's date with today is made by the loader run on page load:
    with a stored word of today and no word of today from the backend it
    shows the stored word, generates nothing and changes neither archive
    nor storage. *)
Theorem generateNewDay_same_day_word (e : Env) (es : list Env) (w : World) :
  Forall (fun e' => today e' = today e) es ->
  (is_Some (wordData (storage w) !! today e) \/
   (storageWritable e = true /\
    exists x, generateNonsenseWord e (aiProvider (react w)) (getApiKey (react w))
              = Resolved x)) ->
  let first := after (invoke generateNewDay e) w in
  let last := generateNewDayTimes (e :: es) w in
  is_Some (currentWord (react first)) /\
  currentWord (react last) = currentWord (react first) /\
  submissions (react last) = [] /\
  (forall lw, ls_currentWord (storage w) = Some lw -> date lw = today e ->
     (forall d, fetchCurrent e = Resolved (Some d) -> date d <> today e) ->
     let loaded := after (invoke tryLoadFromBackend e) w in
     currentWord (react loaded) = Some lw /\
     archive (react loaded) = archive (react w) /\
     storage loaded = storage w /\
     calls loaded = calls w ++ [CallFetchCurrent]).
Proof.
  intros Hday Hsrc. cbn zeta.
  assert (Hfirst : exists wd,
             currentWord (react (after (invoke generateNewDay e) w)) = Some wd /\
             wordData (storage (after (invoke generateNewDay e) w)) !! today e = Some wd).
  { destruct (wordData (storage w) !! today e) as [cw|] eqn:Hc.
    - destruct (generateNewDay_cache_hit (react w) e w cw Hc) as [H1 H2].
      exists cw. rewrite invoke_after, H2. auto.
    - destruct Hsrc as [[? ?]|[Hw [x Hx]]]; [congruence|].
      destruct (generateNewDay_cache_fill (react w) e w x Hc Hx Hw) as (wd & ? & ? & _).
      exists wd. auto. }
  destruct Hfirst as (wd & Hcur & Hcache).
  split_all.
  - rewrite Hcur. eauto.
  - rewrite Hcur. destruct es as [|e' es'].
    + exact Hcur.
    + cbn [generateNewDayTimes].
      apply (generateNewDayTimes_cached (today e) wd (e' :: es') Hday); [congruence|].
      exact Hcache.
  - apply generateNewDayTimes_clears. congruence.
  - intros lw Hlw Hdate Hback.
    apply (tryLoadFromBackend_stored_today (react w) e w lw Hlw Hdate Hback).
Qed.

(** [/api/generate] writes the document once: it is either left as it was,
    or gets the new current word together with an empty pool; the archive
    is not touched. *)
Lemma generate_single_write (e : Server.Env) (k : option string) (d : Server.Data) :
  let d' := snd (Server.generate e k d) in
  d' = d \/
  (Server.submissions d' = [] /\ is_Some (Server.current d') /\
   Server.archive d' = Server.archive d).
Proof.
  cbn zeta. unfold Server.generate. repeat case_match; cbn; eauto.
Qed.


(** The placeholder of line 186. *)
Lemma generateNewDay_placeholder (c : AppState) (e : Env) (w : World) :
  wordData (storage w) !! today e = None ->
  generateNonsenseWord e (aiProvider c) (getApiKey c) = Rejected ->
  let w' := after (generateNewDay c e) w in
  currentWord (react w') = Some (mkDailyWord "Error" None (today e) None) /\
  storage w' = storage w.
Proof.
  intros Hnone Hrej. generateNewDay_cases c e w; try congruence; auto.
Qed.

(** C1 (amended).  When word generation fails during [generateNewDay] and
    no word is cached for today, the call still completes; it does not
    roll back.  The pool is emptied, the current word becomes the
    placeholder "Error" dated today, and the archive keeps the entry that
    was prepended before generation was tried: none when there was no
    current word, the sentinel entry when the pool was empty, the
    summarized entry when summarization answered, and none when the Gemini
    key is missing or summarization failed. *)
Theorem generateNewDay_word_failure (c : AppState) (e : Env) (w : World) :
  wordData (storage w) !! today e = None ->
  generateNonsenseWord e (aiProvider c) (getApiKey c) = Rejected ->
  let w' := after (generateNewDay c e) w in
  completes (generateNewDay c e) w = true /\
  currentWord (react w') = Some (mkDailyWord "Error" None (today e) None) /\
  submissions (react w') = [] /\
  (currentWord c = None -> archive (react w') = archive (react w)) /\
  (forall cw, currentWord c = Some cw -> submissions c = [] ->
     archive (react w') = mkArchivedWord cw [noDefinitions] :: archive (react w)) /\
  (forall cw defs, currentWord c = Some cw -> submissions c <> [] ->
     key_gemini (apiKeys c) <> "" ->
     summarizeDefinitions e gemini (key_gemini (apiKeys c)) (word cw) (submissions c)
       = Resolved defs ->
     archive (react w') = mkArchivedWord cw defs :: archive (react w)) /\
  (forall cw, currentWord c = Some cw -> submissions c <> [] ->
     key_gemini (apiKeys c) = "" \/
     summarizeDefinitions e gemini (key_gemini (apiKeys c)) (word cw) (submissions c)
       = Rejected ->
     archive (react w') = archive (react w)).
Proof.
  intros Hnone Hrej. cbn zeta. split_all.
  - apply generateNewDay_completes.
  - apply generateNewDay_placeholder; assumption.
  - apply generateNewDay_clears.
  - intros Hc. generateNewDay_cases c e w; congruence.
  - intros cw Hc Hs. generateNewDay_cases c e w; congruence.
  - intros cw defs Hc Hs Hk Hsum. apply truthy_true_iff in Hk.
    generateNewDay_cases c e w; congruence.
  - intros cw Hc Hs Hor. rewrite <- truthy_false_iff in Hor.
    generateNewDay_cases c e w; try congruence;
      destruct Hor; congruence.
Qed.

Lemma persisted_current (w : World) (cw : DailyWord) :
  currentWord (react w) = Some cw ->
  ls_currentWord (storage (reload (after saveStateToLocalStorage w))) = Some cw.
Proof.
  intros H. unfold reload, after, saveStateToLocalStorage, updateStorage. cbn.
  rewrite H. reflexivity.
Qed.

(** C10 (amended).  When word generation throws in [generateNewDay] and no
    word is cached for today, the call ends with an empty pool and the
    placeholder "Error" dated today as current word.  Once that state is
    persisted, a page load on the same day shows the placeholder again
    without calling any generation service, provided [/api/current] does
    not answer with a word dated today. *)
Theorem generateNewDay_failure_then_reload (c : AppState) (e e2 : Env) (w : World) :
  wordData (storage w) !! today e = None ->
  generateNonsenseWord e (aiProvider c) (getApiKey c) = Rejected ->
  today e2 = today e ->
  (forall d, fetchCurrent e2 = Resolved (Some d) -> date d <> today e2) ->
  let placeholder := mkDailyWord "Error" None (today e) None in
  let w' := after (generateNewDay c e) w in
  let w'' := after (invoke tryLoadFromBackend e2)
               (reload (after saveStateToLocalStorage w')) in
  submissions (react w') = [] /\
  currentWord (react w') = Some placeholder /\
  currentWord (react w'') = Some placeholder /\
  calls w'' = [CallFetchCurrent].
Proof.
  intros Hnone Hrej Hday Hback. cbn zeta.
  destruct (generateNewDay_placeholder c e w Hnone Hrej) as [Hcur Hst].
  pose proof (tryLoadFromBackend_stored_today
                (react (reload (after saveStateToLocalStorage
                                  (after (generateNewDay c e) w))))
                e2 _ _ (persisted_current _ _ Hcur)) as Hload.
  cbn zeta in Hload. rewrite Hday in Hload at 1.
  destruct (Hload eq_refl Hback) as (Hcur2 & _ & _ & Hcalls).
  split_all.
  - apply generateNewDay_clears.
  - exact Hcur.
  - exact Hcur2.
  - exact Hcalls.
Qed.

(** C2 (amended).  Of the updates [generateNewDay] makes itself, the
    clearing of the pool comes before the replacement of the current word:
    whatever the other callbacks of the page do while the call is
    suspended, as long as they write neither the pool nor the current
    word, every state that can be observed while the call runs, and the
    state it ends with, has the current word from before the call or an
    empty pool.  On the backend, [/api/generate] leaves the document as it
    was or stores the new current word together with an empty pool, and
    never touches the archive. *)
Theorem generateNewDay_clears_before_new_word (others : Others) (c : AppState)
    (e : Env) (w : World) (se : Server.Env) (k : option string) (d : Server.Data) :
  (forall call s, currentWord (others call s) = currentWord s /\
                  submissions (others call s) = submissions s) ->
  let w' := after (generateNewDayAmid others c e) w in
  let d' := snd (Server.generate se k d) in
  (exists seen, observed w' = observed w ++ seen /\
     forall s, In s (seen ++ [react w']) ->
       currentWord s = currentWord (react w) \/ submissions s = []) /\
  (d' = d \/
   (Server.submissions d' = [] /\ is_Some (Server.current d') /\
    Server.archive d' = Server.archive d)).
Proof.
  intros Hothers. cbn zeta. split; [|apply generate_single_write].
  assert (Hcur : forall call s, currentWord (others call s) = currentWord s)
    by (intros; apply Hothers).
  assert (Hsubs : forall call s, submissions (others call s) = submissions s)
    by (intros; apply Hothers).
  unfold generateNewDayAmid.
  unfold after, setCurrentWord, setSubmissions, setArchive, setPreviousDayResults,
    setIsLoading, setWordData, getWordData, tryFinally, tryCatch, bind, ret,
    throw, awaitAmid, update, updateStorage, readStorage, getTodayDateString.
  destruct (currentWord c) as [cw|];
    [ destruct (submissions c) as [|sub subs]; cbn;
      [ | destruct (JsString.truthy (key_gemini (apiKeys c))); cbn;
          [ match goal with
            | |- context [summarizeDefinitions e ?p ?q ?x ?l] =>
                destruct (summarizeDefinitions e p q x l)
            end; cbn | ] ]
    | cbn ];
    (destruct (wordData (storage w) !! today e); cbn;
     [ | destruct (generateNonsenseWord e (aiProvider c) (getApiKey c)); cbn;
         [ destruct (enableImages c && JsString.truthy (key_clipdrop (apiKeys c))); cbn;
           [ match goal with
             | |- context [generateImageWithClipDrop e ?q ?x] =>
                 destruct (generateImageWithClipDrop e q x)
             end; cbn | ];
           destruct (storageWritable e); cbn
         | ] ]).
  all: eexists; split;
    [ rewrite <- ?app_assoc; try reflexivity; symmetry; apply app_nil_r | ].
  all: cbn; intros s Hs;
    repeat (destruct Hs as [<-|Hs]; [cbn; rewrite ?Hsubs, ?Hcur; cbn; auto|]);
    destruct Hs.
Qed.

(** C8.  A rollover started with an empty pool makes no call to the
    summarization service, and the archive entry it creates for the
    outgoing word carries exactly the sentinel definition; when there is
    no outgoing word the archive is unchanged.  [triggerSummarization]
    does nothing at all on an empty pool. *)
Theorem generateNewDay_empty_pool (c : AppState) (e : Env) (w : World) :
  submissions c = [] ->
  let w' := after (generateNewDay c e) w in
  (exists made, calls w' = calls w ++ made /\
     forall x s, ~ In (CallSummarize x s) made) /\
  (forall cw, currentWord c = Some cw ->
     archive (react w') = mkArchivedWord cw [noDefinitions] :: archive (react w)) /\
  (currentWord c = None -> archive (react w') = archive (react w)) /\
  after (triggerSummarization c e) w = w.
Proof.
  intros Hempty. cbn zeta. split_all.
  - generateNewDay_cases c e w; try congruence.
    all: eexists; split;
      [ rewrite <- ?app_assoc; try reflexivity; symmetry; apply app_nil_r | ].
    all: cbn; intros x s Hin; intuition congruence.
  - intros cw Hc. generateNewDay_cases c e w; congruence.
  - intros Hc. generateNewDay_cases c e w; congruence.
  - unfold triggerSummarization. rewrite Hempty.
    destruct (currentWord c); reflexivity.
Qed.


(** C4 (amended).  [manuallySetWord] with a literal word completes in every
    state; it asks for an image when a ClipDrop key is configured, sets the
    current word to the literal dated today (with the image when one was
    produced), empties the pool, and leaves the archive as it was: the
    outgoing word is not archived. *)
Theorem manuallySetWord_effects (c : AppState) (e : Env) (lit : string) (w : World) :
  let w' := after (manuallySetWord c e lit) w in
  let img :=
    if JsString.truthy (key_clipdrop (apiKeys c)) then
      match generateImageWithClipDrop e (key_clipdrop (apiKeys c)) lit with
      | Resolved i => Some i
      | Rejected => None
      end
    else None in
  completes (manuallySetWord c e lit) w = true /\
  currentWord (react w') = Some (mkDailyWord lit img (today e) None) /\
  submissions (react w') = [] /\
  archive (react w') = archive (react w) /\
  calls w' = calls w ++
    (if JsString.truthy (key_clipdrop (apiKeys c)) then [CallGenerateImage lit] else []).
Proof.
  cbn zeta. unfold manuallySetWord. unfold_async. cbn.
  destruct (JsString.truthy (key_clipdrop (apiKeys c))); cbn.
  - destruct (generateImageWithClipDrop e (key_clipdrop (apiKeys c)) lit); cbn; auto.
  - rewrite app_nil_r. auto.
Qed.

(** ** Likes *)

Lemma map_id_on {A} (f : A -> A) (l : list A) :
  (forall x, In x l -> f x = x) -> map f l = l.
Proof.
  induction l as [|a l IH]; cbn; intros H; [reflexivity|].
  rewrite H by auto. rewrite IH by auto. reflexivity.
Qed.

(** C5 (amended).  [likeSubmission] never reports an error.  With an id
    that matches no submission the state is unchanged.  In general the pool
    keeps its length and order; a submission whose id differs is kept as it
    is, one whose id matches has its likes raised by one and nothing else
    changed; current word and archive are untouched. *)
Theorem likeSubmission_effects (i : string) (w : World) :
  let w' := after (likeSubmission i) w in
  completes (likeSubmission i) w = true /\
  ((forall sub, In sub (submissions (react w)) -> id sub <> i) ->
     react w' = react w) /\
  List.length (submissions (react w')) = List.length (submissions (react w)) /\
  (forall n sub, nth_error (submissions (react w)) n = Some sub ->
     exists sub', nth_error (submissions (react w')) n = Some sub' /\
       (id sub <> i -> sub' = sub) /\
       (id sub = i ->
          sub' = {| id := id sub; text := text sub; username := username sub;
                    likes := likes sub + 1;
                    createdAt := createdAt sub; sub_image := sub_image sub |})) /\
  currentWord (react w') = currentWord (react w) /\
  archive (react w') = archive (react w).
Proof.
  cbn zeta. unfold likeSubmission. unfold_async. cbn. split_all; try reflexivity.
  - intros Hno. rewrite map_id_on.
    + destruct (react w); reflexivity.
    + intros sub Hin. apply Hno in Hin. apply String.eqb_neq in Hin.
      rewrite Hin. reflexivity.
  - apply length_map.
  - intros n sub Hn. eexists. split.
    + rewrite nth_error_map, Hn. reflexivity.
    + split; intros Hid.
      * apply String.eqb_neq in Hid. rewrite Hid. reflexivity.
      * apply String.eqb_eq in Hid. rewrite Hid. reflexivity.
Qed.

(** ** Submission intake *)

Lemma trim_nonempty (t : string) : JsString.trim t <> "" -> JsString.truthy t = true.
Proof. destruct t; cbn; [congruence | reflexivity]. Qed.

(** C6 (amended).  A text that is empty after trimming is rejected without
    side effect: [addSubmission] leaves everything as it was and
    [/api/submit] answers 400.  Every text that is not empty after
    trimming is accepted, whatever its length: one submission with the
    trimmed text and zero likes is appended. *)
Theorem submit_validation (t : string) :
  (JsString.trim t = "" ->
     (forall c e w, after (addSubmission c e t) w = w) /\
     (forall e u p d,
        Server.submit e (Some t) u p d
        = (Server.Failure 400 "Text is required", d))) /\
  (JsString.trim t <> "" ->
     (forall c e w, exists s,
        submissions (react (after (addSubmission c e t) w))
        = submissions (react w) ++ [s] /\
        text s = JsString.trim t /\ likes s = 0) /\
     (forall e u p d, Server.diskWritable e = true -> exists s,
        Server.submit e (Some t) u p d
        = (Server.Json 200 s,
           {| Server.current := Server.current d;
              Server.submissions := Server.submissions d ++ [s];
              Server.archive := Server.archive d |}) /\
        text s = JsString.trim t /\ likes s = 0)).
Proof.
  split.
  - intros Hempty. split.
    + intros c e w. unfold addSubmission. rewrite Hempty. reflexivity.
    + intros e u p d. unfold Server.submit, Server.presentKey.
      destruct (JsString.truthy t); [rewrite Hempty|]; reflexivity.
  - intros Hne. pose proof (trim_nonempty t Hne) as Ht.
    apply truthy_true_iff in Hne. split.
    + intros c e w. unfold addSubmission. rewrite Hne. unfold_async. cbn.
      eexists. split_all; reflexivity.
    + intros e u p d Hdisk. unfold Server.submit, Server.presentKey.
      rewrite Ht, Hne, Hdisk. cbn.
      eexists. split_all; reflexivity.
Qed.

(** ** Word generation on the backend *)

Lemma generate_word_rejected (e : Server.Env) (k : option string) (d : Server.Data) :
  Server.generateWordText e = Rejected ->
  exists msg, Server.generate e k d = (Server.Failure 500 msg, d).
Proof.
  intros Hrej. unfold Server.generate. rewrite Hrej.
  repeat case_match; eauto.
Qed.

Lemma handler_word_rejected (e : Server.Env) (m : string) :
  Server.generateWordText e = Rejected ->
  exists st msg, Server.handler e m = Server.Failure st msg.
Proof.
  intros Hrej. unfold Server.handler. rewrite Hrej.
  repeat case_match; eauto.
Qed.

(** C7 (amended).  Every word returned by the serverless handler or by
    [/api/generate] consists of letters only and has at most 12 of them
    (nothing is said about a minimum).  Both fail when the word generation
    call errors, and [/api/generate] then leaves the document unchanged. *)
Theorem generated_word_shape (e : Server.Env) :
  (forall m st w, Server.handler e m = Server.Json st w ->
     JsString.forallb JsString.isAlpha (word w) = true /\
     String.length (word w) <= 12) /\
  (forall k d st w d', Server.generate e k d = (Server.Json st w, d') ->
     JsString.forallb JsString.isAlpha (word w) = true /\
     String.length (word w) <= 12) /\
  (Server.generateWordText e = Rejected ->
     (forall m, exists st msg, Server.handler e m = Server.Failure st msg) /\
     (forall k d, exists msg, Server.generate e k d = (Server.Failure 500 msg, d))).
Proof.
  split_all.
  - intros m st w. unfold Server.handler.
    repeat case_match; intros [= <- <-]; apply normalizeWord_shape.
  - intros k d st w d'. unfold Server.generate.
    repeat case_match; intros [= <- <- <-]; apply normalizeWord_shape.
  - intros Hrej. split.
    + intros m. apply handler_word_rejected, Hrej.
    + intros k d. apply generate_word_rejected, Hrej.
Qed.

(** ** The claims at concrete inputs *)

Import Scenario.

(** C1, counterexample: with the spec's scenario and word generation
    down, [generateNewDay] changes the current word, the pool and the
    archive. *)
Lemma generateNewDay_word_failure_not_rolled_back :
  let e := envOn "2024-01-02" Rejected Rejected (Resolved ["a floating feeling"]) in
  let w := worldWith [feeling] in
  let w' := after (invoke generateNewDay e) w in
  generateNonsenseWord e (aiProvider (react w)) (getApiKey (react w)) = Rejected /\
  currentWord (react w') <> currentWord (react w) /\
  submissions (react w') <> submissions (react w) /\
  archive (react w') <> archive (react w).
Proof. vm_compute. split_all; [reflexivity | discriminate ..]. Qed.

(** C1, instance: the spec's scenario with an empty pool, all services
    down. *)
Lemma generateNewDay_word_failure_witness :
  wordData (storage (worldWith [])) !! today outage = None /\
  generateNonsenseWord outage gemini "AIza-test" = Rejected /\
  ledger (react (after (generateNewDay (stateWith []) outage) (worldWith [])))
  = (Some (mkDailyWord "Error" None "2024-01-02" None), [],
     [mkArchivedWord blorvek [noDefinitions]]).
Proof.
  split; [reflexivity | split; [reflexivity |]].
  destruct (generateNewDay_word_failure (stateWith []) outage (worldWith [])
              eq_refl eq_refl) as (_ & Hcur & Hsubs & _ & Harch & _).
  unfold ledger. rewrite Hcur, Hsubs, (Harch blorvek eq_refl eq_refl).
  reflexivity.
Defined.

(** C2, counterexample: in the spec's scenario the rollover succeeds, and
    while word generation is awaited the archive already holds Blorvek and
    the pool is already empty, although Blorvek is still current. *)
Lemma generateNewDay_not_single_transaction :
  let w := worldWith [feeling] in
  let w' := after (invoke generateNewDay goodDay) w in
  currentWord (react w') = Some zantrel /\
  ~ singleTransaction (react w) (react w') (observed w').
Proof.
  cbn zeta. split; [reflexivity|].
  intros Hone.
  destruct (Hone
    {| currentWord := Some blorvek; submissions := [];
       archive := [mkArchivedWord blorvek ["a floating feeling"]];
       userName := ""; previousDayResults :=
         Some (mkArchivedWord blorvek ["a floating feeling"]);
       aiProvider := gemini; apiKeys := keys; enableImages := true;
       isLoading := true; isSummarizing := false;
       isRegeneratingImage := false |}) as [H|H].
  - vm_compute. auto.
  - vm_compute in H. discriminate H.
  - vm_compute in H. discriminate H.
Qed.

(** C2, instance: the spec's scenario on a good day. *)
Lemma generateNewDay_clears_before_new_word_witness :
  let w' := after (generateNewDay (stateWith [feeling]) goodDay) (worldWith [feeling]) in
  Forall (fun s => currentWord s = Some blorvek \/ submissions s = [])
         (observed w' ++ [react w']).
Proof.
  cbn zeta.
  destruct (generateNewDay_clears_before_new_word quiet
              (stateWith [feeling]) goodDay (worldWith [feeling])
              (serverEnv Rejected) None emptyData
              (fun call s => conj eq_refl eq_refl))
    as ((seen & Hseen & Hall) & _).
  cbn in Hseen. subst seen.
  apply Forall_forall. intros s Hs. apply list_elem_of_In in Hs.
  exact (Hall s Hs).
Defined.

(** C3, counterexample: Zantrel is current and dated today, yet a call
    empties the pool and archives Zantrel, and a second call archives it
    once more. *)
Lemma generateNewDay_same_day_rolls_over :
  let e := goodDay in
  let w := sameDayWorld in
  (exists cw, currentWord (react w) = Some cw /\ date cw = today e) /\
  submissions (react (after (invoke generateNewDay e) w)) <> submissions (react w) /\
  archive (react (after (invoke generateNewDay e) w)) <> archive (react w) /\
  List.length (archive (react (generateNewDayTimes [e; e] w))) = 2.
Proof.
  cbn zeta. split_all.
  - exists zantrel. split; reflexivity.
  - vm_compute. discriminate.
  - vm_compute. discriminate.
  - vm_compute. reflexivity.
Qed.

(** C3, instance: three calls on the second of January, and a page load
    with Zantrel stored. *)
Lemma generateNewDay_same_day_word_witness :
  currentWord (react (generateNewDayTimes [goodDay; goodDay; goodDay] (worldWith [feeling])))
  = currentWord (react (after (invoke generateNewDay goodDay) (worldWith [feeling]))) /\
  currentWord (react (after (invoke tryLoadFromBackend goodDay) sameDayWorld))
  = Some zantrel.
Proof.
  assert (Hday : Forall (fun e' => today e' = today goodDay) [goodDay; goodDay])
    by (repeat constructor).
  destruct (generateNewDay_same_day_word goodDay [goodDay; goodDay] (worldWith [feeling])
              Hday (or_intror (conj eq_refl (ex_intro _ "Zantrel" eq_refl))))
    as (_ & Hsame & _ & _).
  destruct (generateNewDay_same_day_word goodDay [] sameDayWorld
              ltac:(constructor) (or_introl (ex_intro _ zantrel eq_refl)))
    as (_ & _ & _ & Hload).
  split; [exact Hsame|].
  refine (proj1 (Hload zantrel eq_refl eq_refl _)).
  intros d Hd. vm_compute in Hd. discriminate Hd.
Defined.

(** C4, counterexample: Blorvek is current when the word is set by hand,
    and no archive entry is made for it. *)
Lemma manuallySetWord_does_not_archive :
  let w := worldWith [feeling] in
  let w' := after (invoke (fun c e => manuallySetWord c e "Quillon") goodDay) w in
  currentWord (react w) = Some blorvek /\
  archive (react w') = [] /\
  forall defs, archive (react w') <> mkArchivedWord blorvek defs :: archive (react w).
Proof.
  cbn zeta. split_all; [reflexivity | reflexivity |].
  intros defs. vm_compute. discriminate.
Qed.

(** C5, counterexample: liking an id that is not in the pool completes
    normally; no error is reported. *)
Lemma likeSubmission_unknown_id_no_error :
  let w := worldWith [feeling] in
  (forall sub, In sub (submissions (react w)) -> id sub <> "missing") /\
  fst (likeSubmission "missing" w) = Normal tt.
Proof.
  cbn zeta. split; [|reflexivity].
  intros sub [<-|[]]. vm_compute. discriminate.
Qed.

(** C5, instance: an unknown id and the id of the only submission. *)
Lemma likeSubmission_effects_witness :
  react (after (likeSubmission "missing") (worldWith [feeling]))
  = react (worldWith [feeling]) /\
  exists sub', nth_error (submissions (react (after (likeSubmission "s1")
                                               (worldWith [feeling])))) 0 = Some sub' /\
               likes sub' = 1.
Proof.
  destruct (likeSubmission_effects "missing" (worldWith [feeling]))
    as (_ & Hsame & _).
  destruct (likeSubmission_effects "s1" (worldWith [feeling]))
    as (_ & _ & _ & Hnth & _).
  split.
  - apply Hsame. intros sub [<-|[]]. vm_compute. discriminate.
  - destruct (Hnth 0 feeling eq_refl) as (sub' & Hsub' & _ & Hliked).
    exists sub'. split; [exact Hsub'|].
    rewrite (Hliked eq_refl). reflexivity.
Defined.

(** C6, counterexample: a text of 281 characters is accepted by both
    [addSubmission] and [/api/submit]. *)
Lemma submit_accepts_long_text :
  String.length longText = 281 /\
  List.length (submissions (react (after (invoke (fun c e => addSubmission c e longText)
                                             goodDay) (worldWith [])))) = 1 /\
  exists s d', Server.submit (serverEnv Rejected) (Some longText) None None emptyData
               = (Server.Json 200 s, d') /\
               Server.submissions d' = [s] /\ text s = longText.
Proof.
  split_all; [vm_compute; reflexivity | vm_compute; reflexivity |].
  eexists. eexists. split_all; vm_compute; reflexivity.
Qed.

(** C6, instance: a blank text, an empty text and a padded one. *)
Lemma submit_validation_witness :
  after (addSubmission (stateWith []) goodDay " ") (worldWith []) = worldWith [] /\
  Server.submit (serverEnv Rejected) (Some "") None None emptyData
  = (Server.Failure 400 "Text is required", emptyData) /\
  exists s, submissions (react (after (addSubmission (stateWith []) goodDay
                                         " a floating feeling ") (worldWith [])))
            = [s] /\ text s = "a floating feeling" /\ likes s = 0.
Proof.
  destruct (submit_validation " ") as [Hblank _].
  destruct (submit_validation "") as [Hempty _].
  destruct (submit_validation " a floating feeling ") as [_ Hgood].
  split_all.
  - apply (proj1 (Hblank eq_refl)).
  - apply (proj2 (Hempty eq_refl)).
  - assert (Hne : JsString.trim " a floating feeling " <> "")
      by (vm_compute; discriminate).
    destruct (proj1 (Hgood Hne) (stateWith []) goodDay (worldWith []))
      as (s & Hs & Ht & Hl).
    exists s. split_all; [exact Hs | exact Ht | exact Hl].
Defined.

(** C7, counterexample: the model answers "Zoq" and the handler returns a
    word of three letters; it answers "2024!" and both handlers succeed
    with the empty word. *)
Lemma generated_word_can_be_short_or_empty :
  Server.handler (serverEnv (Resolved (Some "Zoq"))) "POST"
  = Server.Json 200 (mkDailyWord "Zoq" None "2024-01-02" None) /\
  JsString.stripNonAlpha "2024!" = "" /\
  Server.handler (serverEnv (Resolved (Some "2024!"))) "POST"
  = Server.Json 200 (mkDailyWord "" None "2024-01-02" None) /\
  fst (Server.generate (serverEnv (Resolved (Some "2024!"))) None emptyData)
  = Server.Json 200
      (mkDailyWord "" None "2024-01-02" (Some "A hush between tides.")).
Proof. split_all; vm_compute; reflexivity. Qed.

(** C7, instance: an answer with punctuation and more than 12 letters, and
    a failing call. *)
Lemma generated_word_shape_witness :
  Server.handler (serverEnv (Resolved (Some " Quillon-vesper! "))) "POST"
  = Server.Json 200 (mkDailyWord "Quillonvespe" None "2024-01-02" None) /\
  JsString.forallb JsString.isAlpha "Quillonvespe" = true /\
  String.length "Quillonvespe" <= 12 /\
  exists msg, Server.generate (serverEnv Rejected) None emptyData
              = (Server.Failure 500 msg, emptyData).
Proof.
  destruct (generated_word_shape (serverEnv (Resolved (Some " Quillon-vesper! "))))
    as (Hshape & _ & _).
  destruct (generated_word_shape (serverEnv Rejected)) as (_ & _ & Hfail).
  assert (Hrun : Server.handler (serverEnv (Resolved (Some " Quillon-vesper! "))) "POST"
                 = Server.Json 200 (mkDailyWord "Quillonvespe" None "2024-01-02" None))
    by (vm_compute; reflexivity).
  destruct (Hshape "POST" 200 _ Hrun) as [Halpha Hlen].
  split_all; [exact Hrun | exact Halpha | exact Hlen |].
  exact (proj2 (Hfail eq_refl) None emptyData).
Defined.

(** C8, instance: the spec's scenario with an empty pool. *)
Lemma generateNewDay_empty_pool_witness :
  submissions (stateWith []) = [] /\
  archive (react (after (generateNewDay (stateWith []) goodDay) (worldWith [])))
  = [mkArchivedWord blorvek ["No definitions were submitted for this word."]] /\
  exists made,
    calls (after (generateNewDay (stateWith []) goodDay) (worldWith [])) = made /\
    forall x s, ~ In (CallSummarize x s) made.
Proof.
  destruct (generateNewDay_empty_pool (stateWith []) goodDay (worldWith []) eq_refl)
    as ((made & Hmade & Hnone) & Harch & _ & _).
  split_all; [reflexivity | exact (Harch blorvek eq_refl) |].
  exists made. split; [exact Hmade | exact Hnone].
Defined.


(** C10, counterexample: after the failed call the placeholder is current
    and dated today; a further call on the same day, with word generation
    back, replaces it, and so does a page load when the backend serves a
    word of today. *)
Lemma placeholder_is_replaced_same_day :
  let w' := after (invoke generateNewDay outage) (worldWith []) in
  let placeholder := mkDailyWord "Error" None "2024-01-02" None in
  currentWord (react w') = Some placeholder /\
  today goodDay = today outage /\ today backendHasToday = today outage /\
  currentWord (react (after (invoke generateNewDay goodDay) w')) = Some zantrel /\
  currentWord (react (after (invoke tryLoadFromBackend backendHasToday)
                        (reload (after saveStateToLocalStorage w')))) = Some glimmer /\
  Some zantrel <> Some placeholder /\ Some glimmer <> Some placeholder.
Proof. cbn zeta. split_all; try (vm_compute; reflexivity); discriminate. Qed.

(** C10, instance: an outage, then a page load during the same outage. *)
Lemma generateNewDay_failure_then_reload_witness :
  let w' := after (generateNewDay (stateWith []) outage) (worldWith []) in
  let w'' := after (invoke tryLoadFromBackend outage)
               (reload (after saveStateToLocalStorage w')) in
  fetchCurrent outage = Rejected /\
  currentWord (react w'') = Some (mkDailyWord "Error" None "2024-01-02" None) /\
  calls w'' = [CallFetchCurrent].
Proof.
  cbn zeta.
  assert (Hback : forall d, fetchCurrent outage = Resolved (Some d) ->
                            date d <> today outage).
  { intros d Hd. vm_compute in Hd. discriminate Hd. }
  destruct (generateNewDay_failure_then_reload (stateWith []) outage outage
              (worldWith []) eq_refl eq_refl eq_refl Hback)
    as (_ & _ & Hcur & Hcalls).
  split_all; [reflexivity | exact Hcur | exact Hcalls].
Defined.

(** * Further properties of the code *)

From Stdlib Require Import Sorted.

(** ** Trimming *)

Lemma trimEnd_cons (c : ascii) (r : string) :
  JsString.trimEnd (String c r)
  = match JsString.trimEnd r with
    | EmptyString =>
        if JsString.isWhiteSpace c then EmptyString else String c EmptyString
    | r' => String c r'
    end.
Proof. reflexivity. Qed.

Lemma trimEnd_idem (s : string) : JsString.trimEnd (JsString.trimEnd s) = JsString.trimEnd s.
Proof.
  induction s as [|c r IH]; [reflexivity|]. rewrite trimEnd_cons.
  destruct (JsString.trimEnd r) as [|c' r'] eqn:Hr.
  - destruct (JsString.isWhiteSpace c) eqn:Hc; [reflexivity|].
    rewrite trimEnd_cons. cbn. rewrite Hc. reflexivity.
  - rewrite trimEnd_cons, IH. reflexivity.
Qed.

Lemma trimStart_head (s : string) :
  JsString.trimStart s = "" \/
  exists c r, JsString.trimStart s = String c r /\ JsString.isWhiteSpace c = false.
Proof.
  induction s as [|c r IH]; [left; reflexivity|]. cbn.
  destruct (JsString.isWhiteSpace c) eqn:Hc; [exact IH|].
  right. eauto.
Qed.

Lemma trimEnd_keeps_head (c : ascii) (r : string) :
  JsString.isWhiteSpace c = false ->
  exists r', JsString.trimEnd (String c r) = String c r'.
Proof.
  intros Hc. cbn. destruct (JsString.trimEnd r); [rewrite Hc|]; eauto.
Qed.

Lemma trim_head (s : string) :
  JsString.trim s = "" \/
  exists c r, JsString.trim s = String c r /\ JsString.isWhiteSpace c = false.
Proof.
  unfold JsString.trim.
  destruct (trimStart_head s) as [H|(c & r & H & Hc)]; rewrite H.
  - left. reflexivity.
  - right. destruct (trimEnd_keeps_head c r Hc) as [r' Hr']. eauto.
Qed.

Lemma trim_idem (s : string) : JsString.trim (JsString.trim s) = JsString.trim s.
Proof.
  destruct (trim_head s) as [H|(c & r & H & Hc)].
  - rewrite H. reflexivity.
  - unfold JsString.trim at 1. rewrite H. cbn [JsString.trimStart]. rewrite Hc.
    rewrite <- H. unfold JsString.trim. apply trimEnd_idem.
Qed.

(** ** The feed *)

Import LiveSubmissionsFeed.

Lemma insertByLikes_perm (x : Submission) (l : list Submission) :
  Permutation (insertByLikes x l) (x :: l).
Proof.
  induction l as [|y r IH]; cbn [insertByLikes]; [reflexivity|].
  destruct (likes x <? likes y); [|reflexivity].
  rewrite IH. apply perm_swap.
Qed.

Lemma insertByLikes_sorted (x : Submission) (l : list Submission) :
  StronglySorted (fun a b => likes b <= likes a) l ->
  StronglySorted (fun a b => likes b <= likes a) (insertByLikes x l).
Proof.
  induction l as [|y r IH]; cbn [insertByLikes]; intros Hs.
  - repeat constructor.
  - inversion Hs as [|? ? Hr Hall]; subst.
    destruct (likes x <? likes y) eqn:Hlt.
    + apply Nat.ltb_lt in Hlt. constructor; [apply IH, Hr|].
      rewrite insertByLikes_perm. constructor; [lia | exact Hall].
    + apply Nat.ltb_ge in Hlt. constructor; [exact Hs|].
      constructor; [exact Hlt|].
      eapply Forall_impl; [exact Hall|]. cbn. intros; lia.
Qed.

Lemma insertByLikes_filter (n : nat) (x : Submission) (l : list Submission) :
  StronglySorted (fun a b => likes b <= likes a) l ->
  List.filter (fun s => likes s =? n) (insertByLikes x l)
  = List.filter (fun s => likes s =? n) (x :: l).
Proof.
  induction l as [|y r IH]; intros Hs; [reflexivity|].
  inversion Hs as [|? ? Hr Hall]; subst. cbn [insertByLikes].
  destruct (likes x <? likes y) eqn:Hlt; [|reflexivity].
  apply Nat.ltb_lt in Hlt. cbn [List.filter]. rewrite (IH Hr). cbn [List.filter].
  destruct (likes x =? n) eqn:Hx; destruct (likes y =? n) eqn:Hy; try reflexivity.
  apply Nat.eqb_eq in Hx, Hy. lia.
Qed.

(** X1.  The feed shows the pool ordered by likes, highest first: the
    order is a rearrangement of the pool, no entry is followed by one with
    more likes, and entries with equal likes keep the order they have in
    the pool. *)
Theorem sortedSubmissions_sorted_stable (subs : list Submission) :
  Permutation (sortedSubmissions subs) subs /\
  StronglySorted (fun a b => likes b <= likes a) (sortedSubmissions subs) /\
  forall n, List.filter (fun s => likes s =? n) (sortedSubmissions subs)
            = List.filter (fun s => likes s =? n) subs.
Proof.
  unfold sortedSubmissions.
  induction subs as [|x l (Hp & Hs & Hf)]; cbn [fold_right].
  - repeat split; constructor.
  - split; [|split].
    + rewrite insertByLikes_perm. constructor. exact Hp.
    + apply insertByLikes_sorted, Hs.
    + intros n. rewrite (insertByLikes_filter n x _ Hs). cbn [List.filter].
      rewrite (Hf n). reflexivity.
Qed.

(** ** The backend *)

Lemma presentKey_Some (k : option string) (s : string) :
  Server.presentKey k = Some s <-> k = Some s /\ s <> "".
Proof.
  unfold Server.presentKey. destruct k as [t|]; [|split; [discriminate | intros [? _]; discriminate]].
  destruct t; cbn; split.
  - discriminate.
  - intros [[= <-] H]. congruence.
  - intros [= <-]. split; [reflexivity | discriminate].
  - intros [[= <-] _]. reflexivity.
Qed.

(** X2.  [/api/generate] answers 200 exactly when a key is available that
    is neither empty nor the placeholder, the word call and the meaning
    call both answer, and the document can be written.  A 200 answer is
    the word that is then stored as current, dated today.  Every other
    outcome is a 500 answer that leaves the document as it was. *)
Theorem generate_succeeds_iff (e : Server.Env) (k : option string) (d : Server.Data) :
  let usable (s : string) := s <> "" /\ s <> "PLACEHOLDER_API_KEY" in
  let key :=
    match Server.presentKey k with
    | Some s => Some s
    | None => Server.presentKey (Server.GEMINI_API_KEY e)
    end in
  ((exists s, key = Some s /\ usable s) /\
   (exists t, Server.generateWordText e = Resolved t /\
      exists m, Server.generateMeaningText e
                  (Gateway.normalizeWord (Gateway.rawText t)) = Resolved m) /\
   Server.diskWritable e = true
   <-> exists cur, fst (Server.generate e k d) = Server.Json 200 cur) /\
  (forall cur, fst (Server.generate e k d) = Server.Json 200 cur ->
     Server.current (snd (Server.generate e k d)) = Some cur /\
     date cur = Server.today e) /\
  ((forall cur, fst (Server.generate e k d) <> Server.Json 200 cur) ->
     (exists msg, fst (Server.generate e k d) = Server.Failure 500 msg) /\
     snd (Server.generate e k d) = d).
Proof.
  cbn zeta. unfold Server.generate.
  destruct (match Server.presentKey k with
            | Some s => Some s
            | None => Server.presentKey (Server.GEMINI_API_KEY e)
            end) as [s|] eqn:Hkey.
  2: { split_all.
       - split; [intros [(s & [=] & _) _] | intros [cur [=]]].
       - intros cur [=].
       - intros _. eauto. }
  assert (Hs : s <> "").
  { destruct (Server.presentKey k) eqn:Hk.
    - injection Hkey as ->. apply presentKey_Some in Hk. tauto.
    - apply presentKey_Some in Hkey. tauto. }
  destruct (String.eqb s "PLACEHOLDER_API_KEY") eqn:Hp.
  { apply String.eqb_eq in Hp. split_all.
    - split; [intros [(s' & [= <-] & _ & Hne) _]; congruence | intros [cur [=]]].
    - intros cur [=].
    - intros _. eauto. }
  apply String.eqb_neq in Hp.
  destruct (Server.generateWordText e) as [t|] eqn:Ht.
  2: { split_all.
       - split; [intros (_ & (t & [=] & _) & _) | intros [cur [=]]].
       - intros cur [=].
       - intros _. eauto. }
  destruct (Server.generateMeaningText e (Gateway.normalizeWord (Gateway.rawText t)))
    as [m|] eqn:Hm.
  2: { split_all.
       - split; [intros (_ & (t' & [= <-] & m & Hm') & _); congruence | intros [cur [=]]].
       - intros cur [=].
       - intros _. eauto. }
  destruct (Server.diskWritable e) eqn:Hd.
  2: { split_all.
       - split; [intros (_ & _ & [=]) | intros [cur [=]]].
       - intros cur [=].
       - intros _. eauto. }
  cbn. split_all.
  - split; [eauto | intros _]. split_all; eauto.
  - intros cur [= <-]. split; reflexivity.
  - intros Hno. exfalso. eapply Hno. reflexivity.
Qed.

Lemma submit_keeps_shape (e : Server.Env) (t u p : option string) (d : Server.Data) :
  let good (s : Submission) :=
    likes s = 0 /\ text s <> "" /\ JsString.trim (text s) = text s in
  Server.archive (snd (Server.submit e t u p d)) = Server.archive d /\
  Server.current (snd (Server.submit e t u p d)) = Server.current d /\
  (Forall good (Server.submissions d) ->
   Forall good (Server.submissions (snd (Server.submit e t u p d)))).
Proof.
  cbn zeta. unfold Server.submit.
  destruct (Server.presentKey t) as [s|]; [|auto].
  destruct (JsString.truthy (JsString.trim s)) eqn:Hs; cbn; [|auto].
  destruct (Server.diskWritable e); cbn; [|auto].
  split_all; try reflexivity.
  intros Hall. apply Forall_app. split; [exact Hall|].
  constructor; [|constructor]. cbn.
  split_all; [reflexivity | apply truthy_true_iff, Hs | apply trim_idem].
Qed.

Lemma generate_keeps_shape (e : Server.Env) (k : option string) (d : Server.Data)
    (good : Submission -> Prop) :
  Server.archive (snd (Server.generate e k d)) = Server.archive d /\
  (Forall good (Server.submissions d) ->
   Forall good (Server.submissions (snd (Server.generate e k d)))).
Proof.
  unfold Server.generate. repeat case_match; cbn; auto.
Qed.

(** X3.  Whatever sequence of [/api/submit] and [/api/generate] requests
    the backend serves, the archive of the document never changes, and if
    every stored submission had zero likes and a non-empty text without
    surrounding white space before, the same holds afterwards. *)
Theorem backend_requests_invariant (rs : list Backend.Request) (d : Server.Data) :
  let good (s : Submission) :=
    likes s = 0 /\ text s <> "" /\ JsString.trim (text s) = text s in
  Server.archive (Backend.serveAll rs d) = Server.archive d /\
  (Forall good (Server.submissions d) ->
   Forall good (Server.submissions (Backend.serveAll rs d))).
Proof.
  cbn zeta. unfold Backend.serveAll. revert d.
  induction rs as [|r rs IH]; intros d; cbn [fold_left]; [auto|].
  destruct (IH (Backend.serve d r)) as [Harch Hgood].
  assert (Hstep : Server.archive (Backend.serve d r) = Server.archive d /\
                  (Forall (fun s => likes s = 0 /\ text s <> "" /\
                                    JsString.trim (text s) = text s)
                          (Server.submissions d) ->
                   Forall (fun s => likes s = 0 /\ text s <> "" /\
                                    JsString.trim (text s) = text s)
                          (Server.submissions (Backend.serve d r)))).
  { destruct r as [e t u p|e k]; cbn [Backend.serve].
    - destruct (submit_keeps_shape e t u p d) as (Ha & _ & Hg). auto.
    - apply generate_keeps_shape. }
  destruct Hstep as [Ha Hg]. split; [congruence | auto].
Qed.

(** X4.  With a non-empty [ADMIN_TOKEN], [/api/generate-image] answers 403
    to every request whose [x-admin-token] header is missing or different,
    whatever the image model would answer; a request that is answered with
    an image either met no token check (token unset or empty) or carried
    exactly the token. *)
Theorem generateImageRoute_admin_gate (e : Server.Env) (adminToken provided : option string)
    (answer : Outcome (option (list (option string)))) :
  (forall token, adminToken = Some token -> token <> "" -> provided <> Some token ->
     Backend.generateImageRoute e adminToken provided answer
     = Server.Failure 403 "Invalid admin token") /\
  (forall st img,
     Backend.generateImageRoute e adminToken provided answer = Server.Json st img ->
     adminToken = None \/ adminToken = Some "" \/ provided = adminToken).
Proof.
  unfold Backend.generateImageRoute. split.
  - intros token -> Hne Hp. apply truthy_true_iff in Hne.
    cbn [Server.presentKey]. rewrite Hne.
    destruct provided as [p|]; cbn [Server.presentKey]; [|reflexivity].
    destruct (JsString.truthy p); [|reflexivity].
    destruct (String.eqb p token) eqn:Heq; [|reflexivity].
    apply String.eqb_eq in Heq. congruence.
  - intros st img.
    destruct adminToken as [token|]; [|auto].
    destruct token as [|c r]; [auto|]. cbn [Server.presentKey JsString.truthy].
    destruct provided as [p|]; cbn [Server.presentKey]; [|discriminate].
    destruct (JsString.truthy p); [|discriminate].
    destruct (String.eqb p (String c r)) eqn:Heq; cbn [negb]; [|discriminate].
    apply String.eqb_eq in Heq. subst. auto.
Qed.

Lemma firstInlineData_Some (parts : list (option string)) (b64 : string) :
  Backend.firstInlineData parts = Some b64 ->
  b64 <> "" /\
  exists before rest, parts = before ++ Some b64 :: rest /\
    Forall (fun p => Server.presentKey p = None) before.
Proof.
  induction parts as [|p rest IH]; cbn; [discriminate|].
  destruct (Server.presentKey p) as [data|] eqn:Hp.
  - intros [= ->]. apply presentKey_Some in Hp as [-> Hne].
    split; [exact Hne|]. exists [], rest. split; [reflexivity | constructor].
  - intros H. destruct (IH H) as (Hne & before & rest' & -> & Hall).
    split; [exact Hne|]. exists (p :: before), rest'.
    split; [reflexivity | constructor; assumption].
Qed.

(** X5.  When [/api/generate-image] answers with an image, the status is
    200, a Gemini key is configured, and the image is the non-empty inline
    data of the first part of the first candidate that carries any: all
    parts before it have no data or empty data. *)
Theorem generateImageRoute_image (e : Server.Env) (adminToken provided : option string)
    (answer : Outcome (option (list (option string)))) (st : nat) (img : string) :
  Backend.generateImageRoute e adminToken provided answer = Server.Json st img ->
  st = 200 /\ img <> "" /\
  (exists key, Server.GEMINI_API_KEY e = Some key /\ key <> "") /\
  exists before rest, answer = Resolved (Some (before ++ Some img :: rest)) /\
    Forall (fun p => p = None \/ p = Some "") before.
Proof.
  unfold Backend.generateImageRoute.
  destruct (match Server.presentKey adminToken with
            | Some token => _ | None => false end); [discriminate|].
  destruct (Server.presentKey (Server.GEMINI_API_KEY e)) as [key|] eqn:Hk; [|discriminate].
  destruct answer as [[parts|]|]; try discriminate.
  destruct (Backend.firstInlineData parts) as [b64|] eqn:Hf; [|discriminate].
  intros [= <- <-].
  destruct (firstInlineData_Some parts b64 Hf) as (Hne & before & rest & -> & Hall).
  split_all; [reflexivity | exact Hne | | ].
  - exists key. apply presentKey_Some, Hk.
  - exists before, rest. split; [reflexivity|].
    eapply Forall_impl; [exact Hall|]. intros [s|] Hs; [|auto].
    right. cbn in Hs. destruct s; [reflexivity | discriminate].
Qed.

(** X6.  The serverless handler answers 405 to every method other than
    POST.  A JSON answer is only given to a POST, has status 200, is dated
    today, has no meaning attached and carries the normalised answer of
    the model as word.  A POST with a usable key is answered whenever word
    generation answers, whatever happens to the image request. *)
Theorem handler_answers (e : Server.Env) (m : string) :
  (m <> "POST" -> Server.handler e m = Server.Failure 405 "Method not allowed") /\
  (forall st w, Server.handler e m = Server.Json st w ->
     m = "POST" /\ st = 200 /\ date w = Server.today e /\ aiMeaning w = None /\
     exists t, Server.generateWordText e = Resolved t /\
               word w = Gateway.normalizeWord (Gateway.rawText t)) /\
  (forall key t, m = "POST" -> Server.GEMINI_API_KEY e = Some key ->
     key <> "" -> key <> "PLACEHOLDER_API_KEY" ->
     Server.generateWordText e = Resolved t ->
     exists w, Server.handler e m = Server.Json 200 w).
Proof.
  unfold Server.handler. split_all.
  - intros Hm. apply String.eqb_neq in Hm. rewrite Hm. reflexivity.
  - intros st w. destruct (String.eqb m "POST") eqn:Hm; cbn [negb]; [|discriminate].
    apply String.eqb_eq in Hm.
    destruct (Server.presentKey (Server.GEMINI_API_KEY e)) as [key|]; [|discriminate].
    destruct (String.eqb key "PLACEHOLDER_API_KEY"); [discriminate|].
    destruct (Server.generateWordText e) as [t|]; [|discriminate].
    intros [= <- <-]. cbn. split_all; eauto.
  - intros key t -> Hk Hne Hp Ht. cbn.
    assert (Hpk : Server.presentKey (Server.GEMINI_API_KEY e) = Some key)
      by (apply presentKey_Some; auto).
    rewrite Hpk. apply String.eqb_neq in Hp. rewrite Hp, Ht. eauto.
Qed.

(** ** The environment file *)

Lemma indexOf_None_cons (c a : ascii) (r : string) :
  Backend.indexOf c (String a r) = None <->
  Ascii.eqb a c = false /\ Backend.indexOf c r = None.
Proof.
  cbn. destruct (Ascii.eqb a c); [split; [discriminate | intros [? _]; discriminate]|].
  destruct (Backend.indexOf c r); split; try discriminate; auto.
  intros [_ ?]. discriminate.
Qed.

Lemma indexOf_trimStart (c : ascii) (s : string) :
  Backend.indexOf c s = None -> Backend.indexOf c (JsString.trimStart s) = None.
Proof.
  induction s as [|a r IH]; [auto|]. intros H. cbn [JsString.trimStart].
  destruct (JsString.isWhiteSpace a); [|exact H].
  apply IH. apply indexOf_None_cons in H. tauto.
Qed.

Lemma indexOf_trimEnd (c : ascii) (s : string) :
  Backend.indexOf c s = None -> Backend.indexOf c (JsString.trimEnd s) = None.
Proof.
  induction s as [|a r IH]; [auto|]. intros H.
  apply indexOf_None_cons in H as [Ha Hr]. specialize (IH Hr).
  rewrite trimEnd_cons. destruct (JsString.trimEnd r) as [|a' r'].
  - destruct (JsString.isWhiteSpace a); [reflexivity|].
    apply indexOf_None_cons. auto.
  - apply indexOf_None_cons. auto.
Qed.

Lemma indexOf_trim (c : ascii) (s : string) :
  Backend.indexOf c s = None -> Backend.indexOf c (JsString.trim s) = None.
Proof. intros H. apply indexOf_trimEnd, indexOf_trimStart, H. Qed.

Lemma indexOf_slice0 (c : ascii) (s : string) (n : nat) :
  Backend.indexOf c s = Some n -> Backend.indexOf c (JsString.slice0 n s) = None.
Proof.
  revert n. induction s as [|a r IH]; intros n; cbn [Backend.indexOf]; [discriminate|].
  destruct (Ascii.eqb a c) eqn:Ha.
  - intros [= <-]. reflexivity.
  - destruct (Backend.indexOf c r) as [m|] eqn:Hr; [|discriminate].
    intros [= <-]. cbn [JsString.slice0]. apply indexOf_None_cons. auto.
Qed.

Lemma loadLine_lookup (env : gmap string string) (line k v : string) :
  Backend.loadLine env line !! k = Some v ->
  env !! k = Some v \/
  (k <> "" /\ v <> "" /\ JsString.trim k = k /\ JsString.trim v = v /\
   Backend.indexOf "=" k = None).
Proof.
  unfold Backend.loadLine.
  destruct (JsString.truthy (JsString.trim line) &&
            negb (Backend.startsWith "#" (JsString.trim line))); [|auto].
  destruct (Backend.indexOf "=" (JsString.trim line)) as [n|] eqn:Hn; [|auto].
  destruct (0 <? n); [|auto].
  destruct (JsString.truthy (JsString.trim (JsString.slice0 n (JsString.trim line)))
            && JsString.truthy
                 (JsString.trim (Backend.dropChars (n + 1) (JsString.trim line))))
    eqn:Hkv; [|auto].
  apply andb_true_iff in Hkv as [Hk Hv].
  rewrite lookup_insert. case_decide as Heq; [|auto].
  intros [= <-]. subst k. right.
  split_all.
  - apply truthy_true_iff, Hk.
  - apply truthy_true_iff, Hv.
  - apply trim_idem.
  - apply trim_idem.
  - apply indexOf_trim, indexOf_slice0, Hn.
Qed.

Lemma loadLine_keeps (env : gmap string string) (line k : string) :
  is_Some (env !! k) -> is_Some (Backend.loadLine env line !! k).
Proof.
  intros H. unfold Backend.loadLine. repeat case_match; try exact H.
  match goal with
  | |- is_Some (<[?key := _]> _ !! _) =>
      apply lookup_insert_is_Some; destruct (decide (key = k)); auto
  end.
Qed.

(** X7.  Loading [.env.local] never removes a variable, and every binding
    found afterwards is either the one from before or has a key and a
    value that are non-empty and free of surrounding white space, the key
    without any [=]. *)
Theorem loadEnv_bindings (file : option string) (env : gmap string string) (k : string) :
  (is_Some (env !! k) -> is_Some (Backend.loadEnv file env !! k)) /\
  (forall v, Backend.loadEnv file env !! k = Some v ->
     env !! k = Some v \/
     (k <> "" /\ v <> "" /\ JsString.trim k = k /\ JsString.trim v = v /\
      Backend.indexOf "=" k = None)).
Proof.
  unfold Backend.loadEnv. destruct file as [content|]; [|auto].
  generalize (Backend.split "010" content). intros lines. revert env.
  induction lines as [|line lines IH]; intros env; cbn [fold_left]; [auto|].
  destruct (IH (Backend.loadLine env line)) as [Hkeep Hnew]. split.
  - intros H. apply Hkeep, loadLine_keeps, H.
  - intros v Hv. destruct (Hnew v Hv) as [Hold|Hfresh]; [|auto].
    apply (loadLine_lookup env line k v Hold).
Qed.

Lemma trim_fixed_head (s : string) :
  JsString.trim s = s -> s <> "" ->
  exists c r, s = String c r /\ JsString.isWhiteSpace c = false.
Proof.
  intros Hfix Hne. destruct (trim_head s) as [H|(c & r & H & Hc)].
  - congruence.
  - exists c, r. split; [congruence | exact Hc].
Qed.

Lemma trim_fixed_end (s : string) : JsString.trim s = s -> JsString.trimEnd s = s.
Proof.
  intros Hfix. rewrite <- Hfix at 1. unfold JsString.trim.
  rewrite trimEnd_idem. exact Hfix.
Qed.

Lemma append_nil (b : string) : "" +:+ b = b.
Proof. reflexivity. Qed.

Lemma append_cons (c : ascii) (a b : string) : String c a +:+ b = String c (a +:+ b).
Proof. reflexivity. Qed.

Lemma trimEnd_app (a b : string) :
  JsString.trimEnd b = b -> b <> "" -> JsString.trimEnd (a +:+ b) = a +:+ b.
Proof.
  intros Hb Hne. induction a as [|c a IH]; [exact Hb|].
  rewrite append_cons, trimEnd_cons, IH.
  destruct (a +:+ b) eqn:Hab; [|reflexivity].
  destruct a; [rewrite append_nil in Hab; congruence | discriminate Hab].
Qed.

Lemma indexOf_app (c : ascii) (k v : string) :
  Backend.indexOf c k = None ->
  Backend.indexOf c (k +:+ String c v) = Some (String.length k).
Proof.
  induction k as [|a k IH]; intros H.
  - rewrite append_nil. cbn. rewrite Ascii.eqb_refl. reflexivity.
  - apply indexOf_None_cons in H as [Ha Hk].
    rewrite append_cons. cbn [Backend.indexOf String.length].
    rewrite Ha, (IH Hk). reflexivity.
Qed.

Lemma slice0_app (k r : string) : JsString.slice0 (String.length k) (k +:+ r) = k.
Proof.
  induction k as [|a k IH].
  - rewrite append_nil. destruct r; reflexivity.
  - rewrite append_cons. cbn [String.length JsString.slice0]. rewrite IH. reflexivity.
Qed.

Lemma dropChars_app (k v : string) (c : ascii) :
  Backend.dropChars (String.length k + 1) (k +:+ String c v) = v.
Proof.
  induction k as [|a k IH]; [reflexivity|].
  rewrite append_cons. cbn [String.length Nat.add Backend.dropChars]. exact IH.
Qed.

(** X8.  A line [KEY=VALUE] sets [KEY] to [VALUE], when key and value are
    non-empty and have no surrounding white space, the key contains no [=]
    and does not start with [#]; the value may contain [=]. *)
Theorem loadLine_assignment (env : gmap string string) (k v : string) :
  k <> "" -> JsString.trim k = k -> Backend.indexOf "=" k = None ->
  Backend.startsWith "#" k = false ->
  v <> "" -> JsString.trim v = v ->
  Backend.loadLine env (k +:+ "=" +:+ v) = <[k := v]> env.
Proof.
  intros Hk Hkfix Hkeq Hkhash Hv Hvfix.
  change ("=" +:+ v) with (String "=" v).
  destruct (trim_fixed_head k Hkfix Hk) as (c & r & -> & Hc).
  assert (Htrim : JsString.trim (String c r +:+ String "=" v)
                  = String c r +:+ String "=" v).
  { unfold JsString.trim. rewrite append_cons. cbn [JsString.trimStart]. rewrite Hc.
    rewrite <- append_cons.
    apply trimEnd_app; [|discriminate].
    rewrite trimEnd_cons, (trim_fixed_end v Hvfix).
    destruct v; [congruence | reflexivity]. }
  unfold Backend.loadLine. rewrite Htrim.
  rewrite (indexOf_app "=" (String c r) v Hkeq).
  rewrite slice0_app, dropChars_app, Hkfix, Hvfix.
  rewrite append_cons. cbn [JsString.truthy Backend.startsWith] in *.
  rewrite Hkhash. cbn [negb andb String.length Nat.ltb Nat.leb].
  apply truthy_true_iff in Hv. rewrite Hv. reflexivity.
Qed.

Lemma split_nonempty (sep : ascii) (s : string) : Backend.split sep s <> [].
Proof.
  induction s as [|c r IH]; cbn; [discriminate|].
  destruct (Ascii.eqb c sep); [discriminate|].
  destruct (Backend.split sep r); discriminate.
Qed.

Lemma split_first_line (sep : ascii) (a rest : string) :
  Backend.indexOf sep a = None ->
  Backend.split sep (a +:+ String sep rest) = a :: Backend.split sep rest.
Proof.
  induction a as [|c a IH]; intros H.
  - rewrite append_nil. cbn. rewrite Ascii.eqb_refl. reflexivity.
  - apply indexOf_None_cons in H as [Hc Ha].
    rewrite append_cons. cbn [Backend.split]. rewrite Hc, (IH Ha). reflexivity.
Qed.

(** X9.  The lines of the file take effect in order: loading a file whose
    first line is [line] is loading the rest into the environment that
    [line] yields, so a later assignment to a key replaces an earlier
    one. *)
Theorem loadEnv_line_by_line (env : gmap string string) (line rest : string) :
  Backend.indexOf "010" line = None ->
  Backend.loadEnv (Some (line +:+ String "010" rest)) env
  = Backend.loadEnv (Some rest) (Backend.loadLine env line).
Proof.
  intros H. unfold Backend.loadEnv. rewrite (split_first_line _ _ _ H). reflexivity.
Qed.

(** ** Page load and persistence *)

Import Provider.

Lemma generateNewDay_frame (c : AppState) (e : Env) (w : World) :
  let w' := after (generateNewDay c e) w in
  userName (react w') = userName (react w) /\
  (currentWord c = None -> archive (react w') = archive (react w)).
Proof. cbn zeta. generateNewDay_cases c e w; split; congruence. Qed.

Lemma tryLoadFromBackend_frame (c : AppState) (e : Env) (w : World) :
  currentWord c = None ->
  let w' := after (tryLoadFromBackend c e) w in
  archive (react w') = archive (react w) /\
  userName (react w') = userName (react w).
Proof.
  intros Hc. cbn zeta. unfold tryLoadFromBackend. unfold_async.
  cbn -[generateNewDay].
  assert (Hgen : forall v, archive (react (generateNewDay c e v).2) = archive (react v) /\
                           userName (react (generateNewDay c e v).2) = userName (react v)).
  { intros v. destruct (generateNewDay_frame c e v) as [Hu Ha].
    split; [exact (Ha Hc) | exact Hu]. }
  destruct (fetchCurrent e) as [[d|]|]; cbn -[generateNewDay];
    try (destruct (String.eqb (date d) (today e)); cbn -[generateNewDay]; [auto|]);
    (destruct (ls_currentWord (storage w)) as [lw|];
     [|match goal with |- context [generateNewDay c e ?v] => exact (Hgen v) end]);
    (destruct (String.eqb (date lw) (today e));
     [|match goal with |- context [generateNewDay c e ?v] => exact (Hgen v) end]);
    destruct (ls_submissions (storage w)); cbn; auto.
Qed.

Lemma fetchSubmissions_frame (r : Outcome (FetchResult (list Submission))) (w : World) :
  let w' := after (fetchSubmissions r) w in
  archive (react w') = archive (react w) /\
  userName (react w') = userName (react w) /\
  currentWord (react w') = currentWord (react w) /\
  calls w' = calls w.
Proof.
  cbn zeta. unfold fetchSubmissions, suspend. unfold_async.
  destruct r as [[|[l|]]|]; cbn; auto.
Qed.

(** X10.  A page load never brings the archive or the user name back:
    whatever was in the state and in storage before, and whatever and
    whenever the backend answers, after loading and persisting the archive
    is empty in the state and in storage, and the user name is empty. *)
Theorem pageLoad_forgets_archive (e : Env)
    (poll : Outcome (FetchResult (list Submission))) (pollFirst : bool) (w : World) :
  archive (react (pageLoad e poll pollFirst w)) = [] /\
  ls_archive (storage (pageLoad e poll pollFirst w)) = Some [] /\
  userName (react (pageLoad e poll pollFirst w)) = "".
Proof.
  unfold pageLoad. cbn zeta.
  set (w0 := reload w).
  assert (Hfinal : forall v, archive (react v) = [] -> userName (react v) = "" ->
            archive (react (after saveStateToLocalStorage v)) = [] /\
            ls_archive (storage (after saveStateToLocalStorage v)) = Some [] /\
            userName (react (after saveStateToLocalStorage v)) = "").
  { intros v Ha Hu.
    change (archive (react v) = [] /\ Some (archive (react v)) = Some [] /\
            userName (react v) = "").
    rewrite Ha, Hu. auto. }
  destruct pollFirst.
  - destruct (fetchSubmissions_frame poll w0) as (Ha & Hu & _ & _).
    set (wp := after (fetchSubmissions poll) w0) in *.
    destruct (tryLoadFromBackend_frame (react w0) e
                {| react := react wp; storage := storage w0;
                   observed := observed wp; calls := calls wp |} eq_refl)
      as [Harch Hname].
    apply Hfinal; [rewrite Harch | rewrite Hname]; cbn [react];
      [rewrite Ha | rewrite Hu]; reflexivity.
  - destruct (tryLoadFromBackend_frame (react w0) e w0 eq_refl) as [Harch Hname].
    destruct (fetchSubmissions_frame poll (after (tryLoadFromBackend (react w0) e) w0))
      as (Ha & Hu & _ & _).
    apply Hfinal; [rewrite Ha, Harch | rewrite Hu, Hname]; reflexivity.
Qed.

(** X11.  The current word survives a page load, and the pool does unless
    the backend replaces it: if the persisted current word is dated today
    and [/api/current] offers no word of today, the load shows the same
    word and asks no generation service; the pool is the persisted one,
    except when [/api/submissions] answers with a list after the loader
    has restored it, in which case the pool is that list. *)
Theorem stored_word_survives_reload (e : Env)
    (poll : Outcome (FetchResult (list Submission))) (pollFirst : bool)
    (w : World) (cw : DailyWord) :
  currentWord (react w) = Some cw ->
  date cw = today e ->
  (forall d, fetchCurrent e = Resolved (Some d) -> date d <> today e) ->
  let w' := pageLoad e poll pollFirst (after saveStateToLocalStorage w) in
  currentWord (react w') = Some cw /\
  submissions (react w')
  = match poll, pollFirst with
    | Resolved (OkBody body), false => match body with Some l => l | None => [] end
    | _, _ => submissions (react w)
    end /\
  calls w' = [CallFetchCurrent].
Proof.
  intros Hcur Hdate Hback. cbn zeta. unfold pageLoad, reload.
  unfold saveStateToLocalStorage, tryLoadFromBackend, fetchSubmissions, suspend.
  unfold_async. cbn.
  rewrite Hcur. cbn.
  assert (Hfetch : fetchCurrent e = Rejected \/ fetchCurrent e = Resolved None \/
                   exists d, fetchCurrent e = Resolved (Some d) /\
                             String.eqb (date d) (today e) = false).
  { destruct (fetchCurrent e) as [[d|]|] eqn:Hf; auto.
    right. right. exists d. split; [reflexivity|].
    apply String.eqb_neq, Hback. reflexivity. }
  destruct pollFirst; destruct poll as [[|[l|]]|]; cbn;
    destruct Hfetch as [->|[->|(d & -> & Hd)]]; cbn;
    rewrite ?Hd; cbn; rewrite Hdate, String.eqb_refl; cbn; auto.
Qed.

(** X12.  A successful poll of [/api/submissions] replaces the pool by the
    backend's list (the empty list for a [null] body), in the state and in
    storage, whatever was added locally before; a failed poll changes
    nothing.  Polling never throws and never touches current word or
    archive. *)
Theorem fetchSubmissions_replaces_pool (c : AppState) (e : Env) (t : string)
    (l : list Submission) (w : World) :
  let w1 := after (addSubmission c e t) w in
  let polled r := after (fetchSubmissions r) w1 in
  submissions (react (polled (Resolved (OkBody (Some l))))) = l /\
  ls_submissions (storage (polled (Resolved (OkBody (Some l))))) = Some l /\
  submissions (react (polled (Resolved (OkBody None)))) = [] /\
  react (polled (Resolved NotOk)) = react w1 /\
  react (polled Rejected) = react w1 /\
  (forall r, completes (fetchSubmissions r) w1 = true /\
             currentWord (react (polled r)) = currentWord (react w1) /\
             archive (react (polled r)) = archive (react w1)).
Proof.
  cbn zeta. unfold fetchSubmissions, suspend. unfold_async. cbn.
  split_all; try reflexivity.
  intros [[|[l'|]]|]; cbn; auto.
Qed.

(** ** The submission form *)

(** X13.  Submitting through the form appends exactly one entry with the
    trimmed text and zero likes to the pool, both when the backend cannot
    be reached (a local entry; the document is untouched) and when it
    stores the submission (the same entry is appended to the document).  A
    blank text does nothing and sends nothing. *)
Theorem handleSubmit_end_to_end (c : AppState) (e : Env) (t u p : string)
    (w : World) (d : Server.Data) :
  (JsString.trim t = "" ->
     forall backend, SubmissionForm.handleSubmit c e backend t u p w d = (w, d)) /\
  (JsString.trim t <> "" ->
     (exists s w1,
        SubmissionForm.handleSubmit c e None t u p w d = (w1, d) /\
        submissions (react w1) = submissions (react w) ++ [s] /\
        text s = JsString.trim t /\ likes s = 0) /\
     (forall se, Server.diskWritable se = true ->
        exists s w1 d1,
          SubmissionForm.handleSubmit c e (Some se) t u p w d = (w1, d1) /\
          submissions (react w1) = submissions (react w) ++ [s] /\
          Server.submissions d1 = Server.submissions d ++ [s] /\
          text s = JsString.trim t /\ likes s = 0)).
Proof.
  unfold SubmissionForm.handleSubmit. split.
  - intros Hblank backend. rewrite Hblank. reflexivity.
  - intros Hne. pose proof (trim_nonempty t Hne) as Ht.
    apply truthy_true_iff in Hne. rewrite Hne. split.
    + unfold addSubmission. rewrite Hne. unfold_async. cbn.
      eexists. eexists. split_all; reflexivity.
    + intros se Hdisk. unfold Server.submit, Server.presentKey.
      rewrite Ht, Hne, Hdisk. cbn.
      unfold addSubmissionFromServer. cbn [text]. rewrite Hne.
      unfold_async. cbn.
      eexists. eexists. eexists. split_all; reflexivity.
Qed.

(** ** Image regeneration and summarization *)

(** X14.  A successful [regenerateImage] asks for an image of the word of
    its render and changes only the image of whatever word is current when
    the answer arrives; pool and archive are untouched.  Without a current
    word it does nothing, and without a ClipDrop key it makes no call and
    leaves the ledger as it was. *)
Theorem regenerateImage_only_image (c : AppState) (e : Env) (w : World) :
  let w' := after (regenerateImage c e) w in
  (forall cw i,
     currentWord c = Some cw -> key_clipdrop (apiKeys c) <> "" ->
     generateImageWithClipDrop e (key_clipdrop (apiKeys c)) (word cw) = Resolved i ->
     currentWord (react w')
     = option_map (fun p => mkDailyWord (word p) (Some i) (date p) (aiMeaning p))
         (currentWord (react w)) /\
     submissions (react w') = submissions (react w) /\
     archive (react w') = archive (react w) /\
     calls w' = calls w ++ [CallGenerateImage (word cw)]) /\
  (currentWord c = None -> w' = w) /\
  (key_clipdrop (apiKeys c) = "" ->
     ledger (react w') = ledger (react w) /\ calls w' = calls w).
Proof.
  cbn zeta. unfold regenerateImage. split_all.
  - intros cw i Hc Hk Hi. apply truthy_true_iff in Hk.
    rewrite Hc. unfold_async. cbn. rewrite Hk, Hi. cbn.
    destruct (currentWord (react w)); cbn; auto.
  - intros Hc. rewrite Hc. reflexivity.
  - intros Hk. apply truthy_false_iff in Hk.
    destruct (currentWord c); [|auto].
    unfold_async. cbn. rewrite Hk. cbn. auto.
Qed.

Lemma generateNewDay_archive_step (c : AppState) (e : Env) (v : World)
    (cw : DailyWord) :
  currentWord c = Some cw -> submissions c <> [] ->
  archive (react (after (generateNewDay c e) v))
  = (if JsString.truthy (key_gemini (apiKeys c)) then
       match summarizeDefinitions e gemini (key_gemini (apiKeys c)) (word cw)
               (submissions c) with
       | Resolved defs => [mkArchivedWord cw defs]
       | Rejected => []
       end
     else []) ++ archive (react v).
Proof.
  intros Hc Hs. generateNewDay_cases c e v; try congruence.
  all: injection Hc as <-; rewrite ?Hsum; reflexivity.
Qed.

(** X15.  [triggerSummarization] on a current word with a non-empty pool
    always completes and resets its busy flag.  If summarization fails,
    current word, pool, archive and storage are unchanged.  If it answers,
    the pool is emptied and the outgoing word is archived with the answer;
    the [generateNewDay] call that follows still sees the old word and
    pool, so when a Gemini key is set it asks for a summary a second time
    and, if that request answers too, archives the same word once more on
    top. *)
Theorem triggerSummarization_outcomes (c : AppState) (e : Env) (w : World)
    (cw : DailyWord) :
  currentWord c = Some cw -> submissions c <> [] ->
  let key :=
    if JsString.truthy (key_gemini (apiKeys c)) then key_gemini (apiKeys c)
    else getApiKey c in
  let w' := after (triggerSummarization c e) w in
  completes (triggerSummarization c e) w = true /\
  isSummarizing (react w') = false /\
  (summarizeDefinitions e gemini key (word cw) (submissions c) = Rejected ->
     ledger (react w') = ledger (react w) /\ storage w' = storage w) /\
  (forall defs,
     summarizeDefinitions e gemini key (word cw) (submissions c) = Resolved defs ->
     submissions (react w') = [] /\
     archive (react w')
     = (if JsString.truthy (key_gemini (apiKeys c)) then
          match summarizeAgain e gemini (key_gemini (apiKeys c)) (word cw)
                  (submissions c) with
          | Resolved again => [mkArchivedWord cw again]
          | Rejected => []
          end
        else [])
       ++ mkArchivedWord cw defs :: archive (react w)).
Proof.
  intros Hc Hs. cbn zeta.
  assert (Hlen : (List.length (submissions c) =? 0) = false).
  { destruct (submissions c); [congruence | reflexivity]. }
  unfold triggerSummarization. rewrite Hc, Hlen.
  unfold after, completes, setIsSummarizing, setArchive, setPreviousDayResults,
    tryFinally, tryCatch, bind, ret, await, update.
  destruct (summarizeDefinitions e gemini
              (if JsString.truthy (key_gemini (apiKeys c))
               then key_gemini (apiKeys c) else getApiKey c)
              (word cw) (submissions c)) as [defs|] eqn:Hsum.
  - cbn -[generateNewDay afterSummary].
    match goal with
    | |- context [generateNewDay c (afterSummary e) ?v] =>
        pose proof (generateNewDay_archive_step c (afterSummary e) v cw Hc Hs) as Harch;
        pose proof (generateNewDay_clears c (afterSummary e) v) as Hclear;
        unfold after in Harch, Hclear;
        destruct (generateNewDay c (afterSummary e) v) as [[[]|] v'] eqn:Hrun
    end; cbn in *.
    all: split_all; try reflexivity; try discriminate.
    all: intros defs' [= <-]; split; [exact Hclear|].
    all: rewrite Harch; reflexivity.
  - cbn. split_all; try reflexivity; try discriminate. auto.
Qed.

(** ** The admin panel *)




(** X17.  The admin form sets nothing for a blank word or while the panel
    is loading; otherwise the new current word is the trimmed input, which
    is non-empty and free of surrounding white space, dated today, and the
    pool is emptied. *)
Theorem handleSetWord_sets_trimmed_word (c : AppState) (e : Env) (loading : bool)
    (m : string) (w : World) :
  let w' := after (AdminPanel.handleSetWord c e loading m) w in
  (JsString.trim m = "" \/ loading = true -> w' = w) /\
  (JsString.trim m <> "" -> loading = false ->
     exists cw, currentWord (react w') = Some cw /\
                word cw = JsString.trim m /\ date cw = today e /\
                word cw <> "" /\ JsString.trim (word cw) = word cw /\
                submissions (react w') = []).
Proof.
  cbn zeta. unfold AdminPanel.handleSetWord. split.
  - intros [Hblank| ->].
    + rewrite Hblank. reflexivity.
    + rewrite orb_true_r. reflexivity.
  - intros Hne ->. pose proof Hne as Htruthy. apply truthy_true_iff in Htruthy.
    rewrite Htruthy. cbn [negb orb].
    unfold manuallySetWord. unfold_async. cbn.
    destruct (JsString.truthy (key_clipdrop (apiKeys c))); cbn;
      [destruct (generateImageWithClipDrop e (key_clipdrop (apiKeys c)) (JsString.trim m));
       cbn|].
    all: eexists; split_all; try reflexivity; try exact Hne; apply trim_idem.
Qed.

(** X18.  After [updateUsername] the user name is never empty: it is the
    trimmed input, or "Anonymous" for a blank one, and the next local
    submission carries exactly that name. *)
Theorem updateUsername_names_submissions (name t : string) (e : Env) (w : World) :
  JsString.trim t <> "" ->
  let shown := if JsString.truthy (JsString.trim name)
               then JsString.trim name else "Anonymous" in
  let w1 := after (Provider.updateUsername name) w in
  let w2 := after (invoke (fun c e => addSubmission c e t) e) w1 in
  userName (react w1) = shown /\ shown <> "" /\
  exists s, submissions (react w2) = submissions (react w) ++ [s] /\
            username s = shown /\ text s = JsString.trim t.
Proof.
  intros Hne. apply truthy_true_iff in Hne. cbn zeta.
  assert (Hshown : (if JsString.truthy (JsString.trim name)
                    then JsString.trim name else "Anonymous") <> "").
  { destruct (JsString.truthy (JsString.trim name)) eqn:Hn;
      [apply truthy_true_iff, Hn | discriminate]. }
  split_all; [reflexivity | exact Hshown |].
  unfold invoke, addSubmission, Provider.updateUsername, Provider.setUsername.
  unfold_async. cbn. rewrite Hne. cbn.
  apply truthy_true_iff in Hshown. rewrite Hshown. cbn.
  eexists. split_all; reflexivity.
Qed.

(** ** The further properties at concrete inputs *)

(** X2, instance: a request with the key taken from the environment, and a
    request whose word generation fails. *)
Lemma generate_succeeds_iff_witness :
  (exists cur, fst (Server.generate (serverEnv (Resolved (Some "Zantrel"))) None emptyData)
               = Server.Json 200 cur) /\
  snd (Server.generate (serverEnv Rejected) None emptyData) = emptyData.
Proof.
  pose proof (generate_succeeds_iff (serverEnv (Resolved (Some "Zantrel"))) None emptyData)
    as Hok.
  pose proof (generate_succeeds_iff (serverEnv Rejected) None emptyData) as Hdown.
  cbn zeta in Hok, Hdown.
  destruct Hok as (Hiff & _ & _). destruct Hdown as (_ & _ & Hfail).
  split.
  - apply (proj1 Hiff). split; [|split].
    + exists "AIza-test". split; [reflexivity|]. split; discriminate.
    + exists (Some "Zantrel"). split; [reflexivity|].
      exists (Some "A hush between tides."). reflexivity.
    + reflexivity.
  - apply Hfail. intros cur H. vm_compute in H. discriminate H.
Defined.

(** X3, instance: two submissions around a generation, from the initial
    document. *)
Lemma backend_requests_invariant_witness :
  let rs := [Backend.PostSubmit (serverEnv Rejected) (Some " first ") None None;
             Backend.PostGenerate (serverEnv (Resolved (Some "Zantrel"))) None;
             Backend.PostSubmit (serverEnv Rejected) (Some "second") (Some "Ada") None] in
  Server.archive (Backend.serveAll rs Backend.initialData) = [] /\
  Forall (fun s => likes s = 0 /\ text s <> "" /\ JsString.trim (text s) = text s)
         (Server.submissions (Backend.serveAll rs Backend.initialData)).
Proof.
  cbn zeta.
  pose proof (backend_requests_invariant
                [Backend.PostSubmit (serverEnv Rejected) (Some " first ") None None;
                 Backend.PostGenerate (serverEnv (Resolved (Some "Zantrel"))) None;
                 Backend.PostSubmit (serverEnv Rejected) (Some "second") (Some "Ada") None]
                Backend.initialData) as H.
  cbn zeta in H. destruct H as [Harch Hgood].
  split; [exact Harch|]. apply Hgood. constructor.
Defined.

(** X4, instance: a wrong token, and the right one. *)
Lemma generateImageRoute_admin_gate_witness :
  Backend.generateImageRoute (serverEnv Rejected) (Some "s3cret") (Some "guess")
    (Resolved (Some [Some "iVBOR"]))
  = Server.Failure 403 "Invalid admin token" /\
  (Some "s3cret" = None \/ Some "s3cret" = Some "" \/
   Some "s3cret" = Some "s3cret" :> option string).
Proof.
  split.
  - apply (proj1 (generateImageRoute_admin_gate (serverEnv Rejected) (Some "s3cret")
                    (Some "guess") (Resolved (Some [Some "iVBOR"]))) "s3cret");
      [reflexivity | discriminate | discriminate].
  - apply (proj2 (generateImageRoute_admin_gate (serverEnv Rejected) (Some "s3cret")
                    (Some "s3cret") (Resolved (Some [Some "iVBOR"]))) 200 "iVBOR").
    reflexivity.
Defined.

(** X5, instance: an answer whose first two parts carry no data. *)
Lemma generateImageRoute_image_witness :
  exists before rest,
    Resolved (Some [None; Some ""; Some "iVBOR"; Some "later"])
    = Resolved (Some (before ++ Some "iVBOR" :: rest)) /\
    Forall (fun p : option string => p = None \/ p = Some "") before.
Proof.
  destruct (generateImageRoute_image (serverEnv Rejected) None None
              (Resolved (Some [None; Some ""; Some "iVBOR"; Some "later"]))
              200 "iVBOR" eq_refl) as (_ & _ & _ & H).
  exact H.
Defined.

(** X6, instance: a GET request, and a POST request that is answered. *)
Lemma handler_answers_witness :
  Server.handler (serverEnv Rejected) "GET" = Server.Failure 405 "Method not allowed" /\
  exists w, Server.handler (serverEnv (Resolved (Some "Zantrel"))) "POST"
            = Server.Json 200 w.
Proof.
  split.
  - apply (proj1 (handler_answers (serverEnv Rejected) "GET")). discriminate.
  - apply (proj2 (proj2 (handler_answers (serverEnv (Resolved (Some "Zantrel"))) "POST"))
             "AIza-test" (Some "Zantrel"));
      [reflexivity | reflexivity | discriminate | discriminate | reflexivity].
Defined.

(** X7, instance: a file with a comment, a padded assignment, a line
    without [=] and an assignment without value, over an environment that
    already has [PORT]. *)
Lemma loadEnv_bindings_witness :
  let file := "# keys" +:+ String "010" (" GEMINI_API_KEY = AIza-test " +:+
              String "010" ("BROKEN" +:+ String "010" "EMPTY=")) in
  let env : gmap string string := {["PORT" := "4000"]} in
  is_Some (Backend.loadEnv (Some file) env !! "PORT") /\
  Backend.loadEnv (Some file) env !! "GEMINI_API_KEY" = Some "AIza-test" /\
  Backend.indexOf "=" "GEMINI_API_KEY" = None.
Proof.
  cbn zeta.
  set (file := "# keys" +:+ String "010" (" GEMINI_API_KEY = AIza-test " +:+
               String "010" ("BROKEN" +:+ String "010" "EMPTY="))).
  set (env := ({["PORT" := "4000"]} : gmap string string)).
  assert (Hrun : Backend.loadEnv (Some file) env !! "GEMINI_API_KEY" = Some "AIza-test")
    by (vm_compute; reflexivity).
  split; [|split; [exact Hrun|]].
  - apply (proj1 (loadEnv_bindings (Some file) env "PORT")).
    exists "4000". vm_compute. reflexivity.
  - destruct (proj2 (loadEnv_bindings (Some file) env "GEMINI_API_KEY") _ Hrun)
      as [Hold|(_ & _ & _ & _ & Heq)].
    + vm_compute in Hold. discriminate Hold.
    + exact Heq.
Defined.

(** X8, instance: a value that itself contains [=]. *)
Lemma loadLine_assignment_witness :
  Backend.loadLine ∅ "CLIPDROP_API_KEY=a=b" = <["CLIPDROP_API_KEY" := "a=b"]> ∅.
Proof.
  apply (loadLine_assignment ∅ "CLIPDROP_API_KEY" "a=b");
    [discriminate | reflexivity | reflexivity | reflexivity | discriminate | reflexivity].
Defined.

(** X9, instance: two assignments to one key; the second is the one that
    stays. *)
Lemma loadEnv_line_by_line_witness :
  Backend.loadEnv (Some ("A=1" +:+ String "010" "A=2")) ∅ !! "A" = Some "2".
Proof.
  rewrite (loadEnv_line_by_line ∅ "A=1" "A=2" eq_refl).
  vm_compute. reflexivity.
Defined.

(** X11, instance: Zantrel of today with one interpretation, with the
    backend unreachable and with the backend answering an empty list. *)
Lemma stored_word_survives_reload_witness :
  let down := Provider.pageLoad goodDay Rejected false
                (after saveStateToLocalStorage sameDayWorld) in
  let up := Provider.pageLoad goodDay (Resolved (Provider.OkBody (Some []))) false
              (after saveStateToLocalStorage sameDayWorld) in
  currentWord (react down) = Some zantrel /\ submissions (react down) = [feeling] /\
  currentWord (react up) = Some zantrel /\ submissions (react up) = [].
Proof.
  cbn zeta.
  assert (Hback : forall d, fetchCurrent goodDay = Resolved (Some d) ->
                            date d <> today goodDay).
  { intros d Hd. vm_compute in Hd. discriminate Hd. }
  destruct (stored_word_survives_reload goodDay Rejected false sameDayWorld zantrel
              eq_refl eq_refl Hback) as (Hcur & Hsubs & _).
  destruct (stored_word_survives_reload goodDay
              (Resolved (Provider.OkBody (Some []))) false sameDayWorld zantrel
              eq_refl eq_refl Hback) as (Hcur' & Hsubs' & _).
  split_all; [exact Hcur | exact Hsubs | exact Hcur' | exact Hsubs'].
Defined.

(** X13, instance: a padded text, with the backend down and with the
    backend up. *)
Lemma handleSubmit_end_to_end_witness :
  SubmissionForm.handleSubmit (stateWith []) goodDay None " " "" "gemini"
    (worldWith []) emptyData = (worldWith [], emptyData) /\
  exists s w1 d1,
    SubmissionForm.handleSubmit (stateWith []) goodDay (Some (serverEnv Rejected))
      " a floating feeling " "" "gemini" (worldWith []) emptyData = (w1, d1) /\
    submissions (react w1) = [s] /\ Server.submissions d1 = [s] /\
    text s = "a floating feeling".
Proof.
  destruct (handleSubmit_end_to_end (stateWith []) goodDay " " "" "gemini"
              (worldWith []) emptyData) as [Hblank _].
  destruct (handleSubmit_end_to_end (stateWith []) goodDay " a floating feeling " ""
              "gemini" (worldWith []) emptyData) as [_ Hgood].
  split; [apply (Hblank eq_refl)|].
  assert (Hne : JsString.trim " a floating feeling " <> "")
    by (vm_compute; discriminate).
  destruct (proj2 (Hgood Hne) (serverEnv Rejected) eq_refl)
    as (s & w1 & d1 & Hrun & Hc & Hs & Ht & _).
  exists s, w1, d1. split_all; [exact Hrun | exact Hc | exact Hs | exact Ht].
Defined.

(** X14, instance: Blorvek gets an image. *)
Lemma regenerateImage_only_image_witness :
  let e := envOn "2024-01-02" Rejected (Resolved "iVBOR") Rejected in
  let w' := after (regenerateImage (stateWith [feeling]) e) (worldWith [feeling]) in
  currentWord (react w')
  = Some (mkDailyWord "Blorvek" (Some "iVBOR") "2024-01-01" None) /\
  submissions (react w') = [feeling] /\ archive (react w') = [].
Proof.
  cbn zeta.
  pose proof (regenerateImage_only_image (stateWith [feeling])
                (envOn "2024-01-02" Rejected (Resolved "iVBOR") Rejected)
                (worldWith [feeling])) as H.
  cbn zeta in H. destruct H as (Hok & _ & _).
  assert (Hk : key_clipdrop (apiKeys (stateWith [feeling])) <> "") by discriminate.
  destruct (Hok blorvek "iVBOR" eq_refl Hk eq_refl) as (Hcur & Hsubs & Harch & _).
  split_all; [exact Hcur | exact Hsubs | exact Harch].
Defined.

(** X15, instance: the spec's scenario closed early on a day on which
    both summarization requests answer; Blorvek is archived twice. *)
Lemma triggerSummarization_outcomes_witness :
  let w' := after (triggerSummarization (stateWith [feeling]) goodDay)
              (worldWith [feeling]) in
  submissions (react w') = [] /\
  archive (react w') = [mkArchivedWord blorvek ["a floating feeling"];
                        mkArchivedWord blorvek ["a floating feeling"]].
Proof.
  cbn zeta.
  assert (Hs : submissions (stateWith [feeling]) <> []) by discriminate.
  pose proof (triggerSummarization_outcomes (stateWith [feeling]) goodDay
                (worldWith [feeling]) blorvek eq_refl Hs) as H.
  cbn zeta in H. destruct H as (_ & _ & _ & Hok).
  exact (Hok ["a floating feeling"] eq_refl).
Defined.


(** X17, instance: a padded word. *)
Lemma handleSetWord_sets_trimmed_word_witness :
  exists cw,
    currentWord (react (after (AdminPanel.handleSetWord (stateWith [feeling]) goodDay
                                 false "  Quillon ") (worldWith [feeling]))) = Some cw /\
    word cw = "Quillon".
Proof.
  pose proof (handleSetWord_sets_trimmed_word (stateWith [feeling]) goodDay false
                "  Quillon " (worldWith [feeling])) as H.
  cbn zeta in H. destruct H as [_ Hset].
  assert (Hne : JsString.trim "  Quillon " <> "") by (vm_compute; discriminate).
  destruct (Hset Hne eq_refl) as (cw & Hcur & Hw & _).
  exists cw. split; [exact Hcur | exact Hw].
Defined.

(** X18, instance: a blank name. *)
Lemma updateUsername_names_submissions_witness :
  exists s,
    submissions (react (after (invoke (fun c e => addSubmission c e "hello") goodDay)
                          (after (Provider.updateUsername "  ") (worldWith []))))
    = [s] /\ username s = "Anonymous".
Proof.
  assert (Hne : JsString.trim "hello" <> "") by (vm_compute; discriminate).
  pose proof (updateUsername_names_submissions "  " "hello" goodDay (worldWith []) Hne)
    as H.
  cbn zeta in H. destruct H as (_ & _ & s & Hs & Hu & _).
  exists s. split; [exact Hs | exact Hu].
Defined.
